(** * Parabolic optics: ray/parabola intersection and reflection

    A shallow embedding of [parabola_optics.py] (class [ParabolaOptics] and
    the focal-length assignment of [update]) and the properties of its
    geometry.

    Numbers.  The program computes with numpy float64 values.  They are
    modelled as real numbers: rounding, overflow, underflow and signed zeros
    are not represented.  One feature of float arithmetic is kept, because
    the program runs into it: dividing by zero.  numpy does not raise there,
    it yields [nan] or [+-inf] and carries on; the model records that the run
    reached such a division ([DivZero]) and stops.

    Arrays.  Ray origins and directions are two-element [np.array]s, as
    [generate_parallel_rays] and [generate_focal_rays] build them; such an
    array is a pair of reals.  A ray count is a natural number. *)

From Stdlib Require Import Reals Lra Lia List Bool.
Import ListNotations.

Open Scope R_scope.

(** ** Float computations that may divide by zero *)

Inductive np (A : Type) : Type :=
| Fin (a : A)     (* the run divides by no zero; [a] is its value *)
| DivZero.        (* the run evaluates a division whose divisor is zero *)

Arguments Fin {A} a.
Arguments DivZero {A}.

Definition bind {A B : Type} (m : np A) (k : A -> np B) : np B :=
  match m with
  | Fin a => k a
  | DivZero => DivZero
  end.

Notation "x <- m ;; k" := (bind m (fun x => k))
  (at level 61, m at next level, right associativity).

(** [x / y] on floats. *)
Definition fdiv (x y : R) : np R :=
  if Req_dec_T y 0 then DivZero else Fin (x / y).

Infix "/." := fdiv (at level 40, left associativity).

(** ** numpy helpers used by the class *)

Definition point : Type := (R * R)%type.

(** [np.allclose(a, b)] with its default tolerances: every component has
    [|a - b| <= atol + rtol * |b|]. *)
Definition rtol : R := 1 / 100000.
Definition atol : R := 1 / 100000000.

Definition isclose (a b : R) : bool :=
  if Rle_dec (Rabs (a - b)) (atol + rtol * Rabs b) then true else false.

Definition allclose (a b : point) : bool :=
  isclose (fst a) (fst b) && isclose (snd a) (snd b).

(** [np.linalg.norm] of a two-element array. *)
Definition norm (v : point) : R := sqrt (fst v ^ 2 + snd v ^ 2).

(** [np.dot] of two two-element arrays. *)
Definition dot (u v : point) : R := fst u * fst v + snd u * snd v.

(** [v / s], componentwise. *)
Definition vdiv (v : point) (s : R) : np point :=
  x <- fst v /. s ;;
  y <- snd v /. s ;;
  Fin (x, y).

(** [np.linspace(start, stop, num)]: [num] samples, both ends included;
    a single sample is [start]. *)
Definition linspace (start stop : R) (num : nat) : list R :=
  match num with
  | 1%nat => [start]
  | _ => map (fun i => start + INR i * ((stop - start) / INR (num - 1)))
             (seq 0 num)
  end.

(** ** The class *)

Record ParabolaOptics : Type := mkParabolaOptics {
  focus : R;
  directrix : R
}.

(** [__init__] (lines 11-13). *)
Definition init (focus : R) : ParabolaOptics :=
  {| focus := focus; directrix := - focus |}.

(** [optics.focus = focus], the assignment [update] makes when the slider
    moves (line 139).  It is the only mutation of an instance. *)
Definition set_focus (self : ParabolaOptics) (f : R) : ParabolaOptics :=
  {| focus := f; directrix := directrix self |}.

(** [parabola_y] (lines 15-17). *)
Definition parabola_y (self : ParabolaOptics) (x : R) : np R :=
  x ^ 2 /. (4 * focus self).

(** [get_tangent_slope] (lines 19-21). *)
Definition get_tangent_slope (self : ParabolaOptics) (x : R) : np R :=
  x /. (2 * focus self).

(** A slope, or [np.inf]. *)
Inductive slope : Type :=
| Slope (m : R)
| Inf.

(** The three ways [reflect_ray] picks the ray parameter [t]; [None] is the
    [return None] of the branch. *)

(** Focus branch, lines 43-51: the [+ sqrt] root, else the [- sqrt] root. *)
Definition focus_root (a b c : R) : np (option R) :=
  let discriminant := b ^ 2 - 4 * a * c in
  if Rlt_dec discriminant 0 then Fin None
  else
    t <- (- b + sqrt discriminant) /. (2 * a) ;;
    if Rlt_dec t 0 then
      t <- (- b - sqrt discriminant) /. (2 * a) ;;
      if Rlt_dec t 0 then Fin None else Fin (Some t)
    else Fin (Some t).

(** Vertical branch, lines 58-62. *)
Definition vertical_root (y_parabola y0 dy : R) : np (option R) :=
  if Req_dec_T dy 0 then Fin None
  else
    t <- (y_parabola - y0) /. dy ;;
    if Rle_dec t 0 then Fin None else Fin (Some t).

(** General branch, lines 70-76: the [- sqrt] root only. *)
Definition general_root (a b c : R) : np (option R) :=
  let discriminant := b ^ 2 - 4 * a * c in
  if Rlt_dec discriminant 0 then Fin None
  else
    t <- (- b - sqrt discriminant) /. (2 * a) ;;
    if Rlt_dec t 0 then Fin None else Fin (Some t).

(** Lines 29-79 of [reflect_ray]: the intersection point and the ray
    parameter, or [None]. *)
Definition intersect (self : ParabolaOptics) (ray_start ray_dir : point)
  : np (option (point * R)) :=
  if allclose ray_start (0, focus self) then
    let dx := fst ray_dir in
    let dy := snd ray_dir in
    a <- dx ^ 2 /. (4 * focus self) ;;
    let b := - dy in
    let c := - focus self in
    r <- focus_root a b c ;;
    match r with
    | None => Fin None
    | Some t => Fin (Some ((0 + t * dx, focus self + t * dy), t))
    end
  else if Req_dec_T (fst ray_dir) 0 then
    let x := fst ray_start in
    y_parabola <- parabola_y self x ;;
    r <- vertical_root y_parabola (snd ray_start) (snd ray_dir) ;;
    match r with
    | None => Fin None
    | Some t => Fin (Some ((x, y_parabola), t))
    end
  else
    let a := fst ray_dir ^ 2 in
    let b := 2 * fst ray_start * fst ray_dir - 4 * focus self * snd ray_dir in
    let c := fst ray_start ^ 2 - 4 * focus self * snd ray_start in
    r <- general_root a b c ;;
    match r with
    | None => Fin None
    | Some t => Fin (Some ((fst ray_start + t * fst ray_dir,
                            snd ray_start + t * snd ray_dir), t))
    end.

(** Lines 81-97 of [reflect_ray]: the reflected direction at an
    intersection point. *)
Definition reflect_at (self : ParabolaOptics) (intersection ray_dir : point)
  : np point :=
  tangent_slope <- get_tangent_slope self (fst intersection) ;;
  normal_slope <-
    (if Req_dec_T tangent_slope 0 then Fin Inf
     else m <- (-1) /. tangent_slope ;; Fin (Slope m)) ;;
  incident <- vdiv ray_dir (norm ray_dir) ;;
  normal <-
    match normal_slope with
    | Inf => Fin (0, 1)
    | Slope m => vdiv (1, m) (norm (1, m))
    end ;;
  let d := dot incident normal in
  Fin (fst incident - 2 * d * fst normal, snd incident - 2 * d * snd normal).

(** [reflect_ray] (lines 23-99): [None], or the triple
    [(intersection, reflected, t)]. *)
Definition reflect_ray (self : ParabolaOptics) (ray_start ray_dir : point)
  : np (option (point * point * R)) :=
  hit <- intersect self ray_start ray_dir ;;
  match hit with
  | None => Fin None
  | Some (intersection, t) =>
      reflected <- reflect_at self intersection ray_dir ;;
      Fin (Some (intersection, reflected, t))
  end.

(** [generate_parallel_rays] (lines 101-110). *)
Definition generate_parallel_rays (self : ParabolaOptics) (num_rays : nat)
  (x_range : point) : list (point * point) :=
  map (fun x => ((x, 10), (0, -1)))
      (linspace (fst x_range) (snd x_range) num_rays).

(** The body of the loop of [generate_focal_rays] (lines 118-126). *)
Definition focal_ray (self : ParabolaOptics) (x : R) : np (point * point) :=
  y_parabola <- parabola_y self x ;;
  let ray_start := (0, focus self) in
  let ray_dir := (x - 0, y_parabola - focus self) in
  ray_dir <- vdiv ray_dir (norm ray_dir) ;;
  Fin (ray_start, ray_dir).

Fixpoint collect {A : Type} (l : list (np A)) : np (list A) :=
  match l with
  | [] => Fin []
  | m :: l' => a <- m ;; r <- collect l' ;; Fin (a :: r)
  end.

(** [generate_focal_rays] (lines 112-127). *)
Definition generate_focal_rays (self : ParabolaOptics) (num_rays : nat)
  : np (list (point * point)) :=
  collect (map (focal_ray self) (linspace (-3) 3 num_rays)).

(** ** The presenter's [update] *)

(** The global [current_ray_type]: ['parallel'] or ['focal']. *)
Inductive ray_type : Type :=
| parallel
| focal.

(** What [update] hands to the plot: the data of [parabola_plot],
    [focus_plot] and [directrix_plot], and the point lists of the lines in
    [ray_lines]. *)
Record scene : Type := mkScene {
  parabola_plot : list point;
  focus_plot : list point;
  directrix_plot : list point;
  ray_lines : list (list point)
}.

(** The 50 points [start + s * dir], [s] over [np.linspace(0, t_end, 50)],
    that [update] plots for one line (lines 168-171 and 175-178). *)
Definition sample_line (start dir : point) (t_end : R) : list point :=
  map (fun s => (fst start + s * fst dir, snd start + s * snd dir))
      (linspace 0 t_end 50).

(** The body of the loop of [update] (lines 163-179): the lines one ray
    adds to [ray_lines]; a ray with no reflection adds none. *)
Definition draw_ray (optics : ParabolaOptics) (ray : point * point)
  : np (list (list point)) :=
  let (ray_start, ray_dir) := ray in
  result <- reflect_ray optics ray_start ray_dir ;;
  match result with
  | Some (intersection, reflected, t) =>
      Fin [sample_line ray_start ray_dir t; sample_line intersection reflected 12]
  | None => Fin []
  end.

(** [update] (lines 132-181), from the slider values and the ray type:
    the mutated instance and the scene.  The old ray lines are removed
    first (lines 151-153), so the scene does not depend on them. *)
Definition update (optics : ParabolaOptics) (s_focus_val : R)
  (s_num_rays_val : nat) (current_ray_type : ray_type)
  : np (ParabolaOptics * scene) :=
  let num_rays := s_num_rays_val in
  let optics := set_focus optics s_focus_val in
  let x := linspace (-8) 8 400 in
  y <- collect (map (parabola_y optics) x) ;;
  rays <- match current_ray_type with
          | parallel => Fin (generate_parallel_rays optics num_rays (-3, 3))
          | focal => generate_focal_rays optics num_rays
          end ;;
  lines <- collect (map (draw_ray optics) rays) ;;
  Fin (optics,
       {| parabola_plot := combine x y;
          focus_plot := [(0, s_focus_val)];
          directrix_plot := [(-8, - s_focus_val); (8, - s_focus_val)];
          ray_lines := concat lines |}).

(** ** Definitions used in the statements *)

(** The point [reflect_ray] measures [t] from: the focus on the focus
    branch (line 53), the ray origin on the other two (lines 56-63, 78-79). *)
Definition ray_base (self : ParabolaOptics) (ray_start : point) : point :=
  if allclose ray_start (0, focus self) then (0, focus self) else ray_start.

(** The ray [generate_focal_rays] builds for the target abscissa [x],
    when it divides by no zero. *)
Definition focal_ray_of (self : ParabolaOptics) (x : R) : point * point :=
  let v := (x - 0, x ^ 2 / (4 * focus self) - focus self) in
  ((0, focus self), (fst v / norm v, snd v / norm v)).

(** The result of a root selection with its parameter divided by [k]. *)
Definition rescale (k : R) (r : np (option R)) : np (option R) :=
  match r with
  | Fin (Some t) => Fin (Some (t / k))
  | Fin None => Fin None
  | DivZero => DivZero
  end.

(** The root the focus branch returns for a ray with [dx <> 0] from a
    parabola with [f > 0], in closed form. *)
Definition focus_t (self : ParabolaOptics) (ray_dir : point) : R :=
  (snd ray_dir + norm ray_dir) * (2 * focus self) / fst ray_dir ^ 2.

(** Mirror image of the direction [i] in the line whose normal is [w]
    ([w] of any nonzero length). *)
Definition mirror (w i : point) : point :=
  (fst i - 2 * (dot i w / dot w w) * fst w,
   snd i - 2 * (dot i w / dot w w) * snd w).

(** ** Basic facts about the float operations *)

Lemma fdiv_nonzero (x y : R) : y <> 0 -> x /. y = Fin (x / y).
Proof.
  intros Hy. unfold fdiv. destruct (Req_dec_T y 0) as [E | _]; [contradiction | reflexivity].
Qed.

Lemma fdiv_zero (x y : R) : y = 0 -> x /. y = DivZero.
Proof.
  intros Hy. unfold fdiv. destruct (Req_dec_T y 0) as [_ | N]; [reflexivity | contradiction].
Qed.

Lemma fdiv_Fin_inv (x y q : R) : x /. y = Fin q -> y <> 0 /\ q = x / y.
Proof.
  unfold fdiv. destruct (Req_dec_T y 0) as [E | N]; [discriminate |].
  intros H. injection H as <-. split; [assumption | reflexivity].
Qed.

Lemma bind_Fin_inv {A B : Type} (m : np A) (k : A -> np B) (b : B) :
  bind m k = Fin b -> exists a, m = Fin a /\ k a = Fin b.
Proof.
  destruct m as [a |]; simpl; [| discriminate].
  intros H. exists a. split; [reflexivity | assumption].
Qed.

Lemma vdiv_nonzero (v : point) (s : R) :
  s <> 0 -> vdiv v s = Fin (fst v / s, snd v / s).
Proof.
  intros Hs. unfold vdiv. rewrite !fdiv_nonzero by assumption. reflexivity.
Qed.

Lemma vdiv_Fin_inv (v w : point) (s : R) :
  vdiv v s = Fin w -> s <> 0 /\ w = (fst v / s, snd v / s).
Proof.
  unfold vdiv. intros H.
  apply bind_Fin_inv in H as (x & Hx & H).
  apply bind_Fin_inv in H as (y & Hy & H).
  apply fdiv_Fin_inv in Hx as [Hs ->]. apply fdiv_Fin_inv in Hy as [_ ->].
  injection H as <-. split; [assumption | reflexivity].
Qed.

Lemma isclose_true (a b : R) :
  isclose a b = true <-> Rabs (a - b) <= atol + rtol * Rabs b.
Proof.
  unfold isclose. destruct (Rle_dec _ _); split; intros; try easy.
Qed.

Lemma allclose_true (a b : point) :
  allclose a b = true <->
  Rabs (fst a - fst b) <= atol + rtol * Rabs (fst b) /\
  Rabs (snd a - snd b) <= atol + rtol * Rabs (snd b).
Proof.
  unfold allclose. rewrite andb_true_iff, !isclose_true. reflexivity.
Qed.

Lemma allclose_false (a b : point) :
  allclose a b = false <->
  atol + rtol * Rabs (fst b) < Rabs (fst a - fst b) \/
  atol + rtol * Rabs (snd b) < Rabs (snd a - snd b).
Proof.
  unfold allclose. rewrite andb_false_iff. unfold isclose.
  do 2 destruct (Rle_dec _ _); split; intros [H | H]; try discriminate;
    try lra; auto; try (left; lra); try (right; lra).
Qed.

Lemma allclose_refl (p : point) : allclose p p = true.
Proof.
  apply allclose_true. unfold atol, rtol.
  rewrite !Rminus_diag, Rabs_R0.
  pose proof (Rabs_pos (fst p)). pose proof (Rabs_pos (snd p)). lra.
Qed.

Lemma norm_nonneg (v : point) : 0 <= norm v.
Proof. apply sqrt_pos. Qed.

Lemma norm_sqr (v : point) : norm v * norm v = fst v ^ 2 + snd v ^ 2.
Proof. unfold norm. apply sqrt_sqrt. nra. Qed.

Lemma norm_zero_inv (v : point) : norm v = 0 -> fst v = 0 /\ snd v = 0.
Proof.
  intros H. pose proof (norm_sqr v) as E. rewrite H in E. nra.
Qed.

Lemma norm_pos_fst (v : point) : fst v <> 0 -> norm v <> 0.
Proof. intros Hx Hn. apply norm_zero_inv in Hn. tauto. Qed.

Lemma norm_pos_snd (v : point) : snd v <> 0 -> norm v <> 0.
Proof. intros Hy Hn. apply norm_zero_inv in Hn. tauto. Qed.

(** ** The reflection step *)

Lemma mirror_preserves_length (w i : point) :
  dot w w <> 0 -> dot (mirror w i) (mirror w i) = dot i i.
Proof.
  destruct w as [wx wy], i as [ix iy]. unfold mirror, dot. simpl.
  intros Hw. field. exact Hw.
Qed.

(** The direction [reflect_at] returns is the mirror image of the unit
    incident direction in the tangent at the point; a normal of the
    parabola at abscissa [x] is [(x, -2f)]. *)
Lemma reflect_at_closed (self : ParabolaOptics) (p d : point) :
  focus self <> 0 -> norm d <> 0 ->
  reflect_at self p d =
  Fin (mirror (fst p, - (2 * focus self)) (fst d / norm d, snd d / norm d)).
Proof.
  intros Hf Hd. unfold reflect_at, get_tangent_slope.
  rewrite fdiv_nonzero by lra. simpl.
  destruct (Req_dec_T (fst p / (2 * focus self)) 0) as [E | N]; simpl.
  - assert (Hx : fst p = 0).
    { apply (Rmult_eq_compat_r (2 * focus self)) in E.
      unfold Rdiv in E. rewrite Rmult_assoc, Rinv_l, Rmult_1_r, Rmult_0_l in E by lra.
      exact E. }
    rewrite vdiv_nonzero by assumption. simpl.
    unfold mirror, dot. simpl. rewrite Hx. apply f_equal. apply f_equal2; field; auto.
  - assert (Hx : fst p <> 0).
    { intros Hx. apply N. rewrite Hx. unfold Rdiv. apply Rmult_0_l. }
    rewrite fdiv_nonzero by assumption. simpl.
    rewrite vdiv_nonzero by assumption. simpl.
    set (m := -1 / (fst p / (2 * focus self))).
    assert (Hm : m = - (2 * focus self) / fst p) by (unfold m; field; auto).
    assert (HN : norm (1, m) <> 0) by (apply norm_pos_fst; simpl; lra).
    rewrite vdiv_nonzero by assumption. simpl.
    pose proof (norm_sqr (1, m)) as HS. simpl in HS.
    set (n := norm (1, m)) in *. set (l := norm d) in *.
    unfold mirror, dot. simpl.
    assert (Hw : fst p * fst p + - (2 * focus self) * - (2 * focus self) <> 0) by nra.
    apply f_equal. apply f_equal2.
    + transitivity (fst d / l - 2 * (fst d / l + snd d / l * m) / (n * n));
        [field; auto |].
      rewrite HS, Hm. field. repeat split; auto; nra.
    + transitivity (snd d / l - 2 * (fst d / l + snd d / l * m) * m / (n * n));
        [field; auto |].
      rewrite HS, Hm. field. repeat split; auto; nra.
Qed.

Lemma reflect_at_Fin_inv (self : ParabolaOptics) (p d r : point) :
  reflect_at self p d = Fin r -> focus self <> 0 /\ norm d <> 0.
Proof.
  unfold reflect_at, get_tangent_slope. intros H.
  apply bind_Fin_inv in H as (ts & Hts & H).
  apply fdiv_Fin_inv in Hts as [Hf _].
  apply bind_Fin_inv in H as (ns & _ & H).
  apply bind_Fin_inv in H as (i & Hi & _).
  apply vdiv_Fin_inv in Hi as [Hd _].
  split; [lra | assumption].
Qed.

Lemma unit_incident (d : point) :
  norm d <> 0 ->
  dot (fst d / norm d, snd d / norm d) (fst d / norm d, snd d / norm d) = 1.
Proof.
  intros Hd. unfold dot. simpl. pose proof (norm_sqr d) as HS.
  transitivity ((fst d ^ 2 + snd d ^ 2) / (norm d * norm d)); [field; auto |].
  rewrite <- HS. field. auto.
Qed.

Lemma norm_of_unit (v : point) : dot v v = 1 -> norm v = 1.
Proof.
  intros H. unfold norm. replace (fst v ^ 2 + snd v ^ 2) with (dot v v).
  - rewrite H. apply sqrt_1.
  - unfold dot. ring.
Qed.

Lemma reflect_at_unit (self : ParabolaOptics) (p d r : point) :
  reflect_at self p d = Fin r -> norm r = 1.
Proof.
  intros H. destruct (reflect_at_Fin_inv _ _ _ _ H) as [Hf Hd].
  rewrite reflect_at_closed in H by assumption. injection H as <-.
  apply norm_of_unit. rewrite mirror_preserves_length.
  - apply unit_incident. assumption.
  - unfold dot. simpl. nra.
Qed.

(** Inversion of [reflect_ray] on a returned triple. *)
Lemma reflect_ray_Some_inv (self : ParabolaOptics) (o d p r : point) (t : R) :
  reflect_ray self o d = Fin (Some (p, r, t)) ->
  intersect self o d = Fin (Some (p, t)) /\ reflect_at self p d = Fin r.
Proof.
  unfold reflect_ray. intros H.
  apply bind_Fin_inv in H as (h & Hh & H).
  destruct h as [[q s] |]; [| discriminate].
  apply bind_Fin_inv in H as (r' & Hr & H).
  injection H as -> -> ->. split; assumption.
Qed.

Lemma reflect_ray_of_hit (self : ParabolaOptics) (o d p : point) (t : R) :
  focus self <> 0 -> norm d <> 0 ->
  intersect self o d = Fin (Some (p, t)) ->
  reflect_ray self o d =
  Fin (Some (p, mirror (fst p, - (2 * focus self))
                       (fst d / norm d, snd d / norm d), t)).
Proof.
  intros Hf Hd Hi. unfold reflect_ray. rewrite Hi. simpl.
  rewrite reflect_at_closed by assumption. reflexivity.
Qed.

Lemma reflect_ray_of_miss (self : ParabolaOptics) (o d : point) :
  intersect self o d = Fin None -> reflect_ray self o d = Fin None.
Proof. intros Hi. unfold reflect_ray. rewrite Hi. reflexivity. Qed.

(** ** The three root selections *)

Lemma vertical_root_Some_inv (y_parabola y0 dy t : R) :
  vertical_root y_parabola y0 dy = Fin (Some t) ->
  dy <> 0 /\ t = (y_parabola - y0) / dy /\ 0 < t.
Proof.
  unfold vertical_root. destruct (Req_dec_T dy 0) as [E | N]; [discriminate |].
  rewrite fdiv_nonzero by assumption. cbn [bind].
  destruct (Rle_dec _ 0) as [L | G]; [discriminate |].
  intros H. injection H as <-. repeat split; [assumption | lra].
Qed.

Lemma vertical_root_backward (y_parabola y0 dy : R) :
  dy <> 0 -> (y_parabola - y0) / dy <= 0 ->
  vertical_root y_parabola y0 dy = Fin None.
Proof.
  intros N L. unfold vertical_root.
  destruct (Req_dec_T dy 0) as [E | _]; [contradiction |].
  rewrite fdiv_nonzero by assumption. cbn [bind].
  destruct (Rle_dec _ 0) as [_ | G]; [reflexivity | contradiction].
Qed.

Lemma vertical_root_forward (y_parabola y0 dy : R) :
  dy <> 0 -> 0 < (y_parabola - y0) / dy ->
  vertical_root y_parabola y0 dy = Fin (Some ((y_parabola - y0) / dy)).
Proof.
  intros N G. unfold vertical_root.
  destruct (Req_dec_T dy 0) as [E | _]; [contradiction |].
  rewrite fdiv_nonzero by assumption. cbn [bind].
  destruct (Rle_dec _ 0) as [L | _]; [lra | reflexivity].
Qed.

Lemma general_root_no_real_root (a b c : R) :
  b ^ 2 - 4 * a * c < 0 -> general_root a b c = Fin None.
Proof.
  intros L. unfold general_root.
  destruct (Rlt_dec _ 0) as [_ | G]; [reflexivity | contradiction].
Qed.

Lemma general_root_backward (a b c : R) :
  a <> 0 -> 0 <= b ^ 2 - 4 * a * c ->
  (- b - sqrt (b ^ 2 - 4 * a * c)) / (2 * a) < 0 ->
  general_root a b c = Fin None.
Proof.
  intros Ha Hd Ht. unfold general_root.
  destruct (Rlt_dec (b ^ 2 - 4 * a * c) 0) as [L | _]; [lra |].
  rewrite fdiv_nonzero by lra. cbn [bind].
  destruct (Rlt_dec _ 0) as [_ | G]; [reflexivity | contradiction].
Qed.

Lemma general_root_forward (a b c : R) :
  a <> 0 -> 0 <= b ^ 2 - 4 * a * c ->
  0 <= (- b - sqrt (b ^ 2 - 4 * a * c)) / (2 * a) ->
  general_root a b c = Fin (Some ((- b - sqrt (b ^ 2 - 4 * a * c)) / (2 * a))).
Proof.
  intros Ha Hd Ht. unfold general_root.
  destruct (Rlt_dec (b ^ 2 - 4 * a * c) 0) as [L | _]; [lra |].
  rewrite fdiv_nonzero by lra. cbn [bind].
  destruct (Rlt_dec _ 0) as [L | _]; [lra | reflexivity].
Qed.

Lemma general_root_Some_inv (a b c t : R) :
  general_root a b c = Fin (Some t) -> 0 <= t.
Proof.
  unfold general_root. destruct (Rlt_dec _ 0) as [L | G]; [discriminate |].
  intros H. apply bind_Fin_inv in H as (s & _ & H).
  destruct (Rlt_dec s 0) as [L | G']; [discriminate |].
  injection H as <-. lra.
Qed.

Lemma focus_root_first (a b c : R) :
  a <> 0 -> 0 <= b ^ 2 - 4 * a * c ->
  0 <= (- b + sqrt (b ^ 2 - 4 * a * c)) / (2 * a) ->
  focus_root a b c = Fin (Some ((- b + sqrt (b ^ 2 - 4 * a * c)) / (2 * a))).
Proof.
  intros Ha Hd Ht. unfold focus_root.
  destruct (Rlt_dec (b ^ 2 - 4 * a * c) 0) as [L | _]; [lra |].
  rewrite fdiv_nonzero by lra. cbn [bind].
  destruct (Rlt_dec _ 0) as [L | _]; [lra | reflexivity].
Qed.

Lemma focus_root_second (a b c : R) :
  a <> 0 -> 0 <= b ^ 2 - 4 * a * c ->
  (- b + sqrt (b ^ 2 - 4 * a * c)) / (2 * a) < 0 ->
  0 <= (- b - sqrt (b ^ 2 - 4 * a * c)) / (2 * a) ->
  focus_root a b c = Fin (Some ((- b - sqrt (b ^ 2 - 4 * a * c)) / (2 * a))).
Proof.
  intros Ha Hd Ht1 Ht2. unfold focus_root.
  destruct (Rlt_dec (b ^ 2 - 4 * a * c) 0) as [L | _]; [lra |].
  rewrite fdiv_nonzero by lra. cbn [bind].
  destruct (Rlt_dec _ 0) as [_ | G]; [| contradiction].
  rewrite fdiv_nonzero by lra. cbn [bind].
  destruct (Rlt_dec _ 0) as [L | _]; [lra | reflexivity].
Qed.


Lemma focus_root_Some_inv (a b c t : R) :
  focus_root a b c = Fin (Some t) -> 0 <= t.
Proof.
  unfold focus_root. destruct (Rlt_dec _ 0) as [L | G]; [discriminate |].
  intros H. apply bind_Fin_inv in H as (s & _ & H).
  destruct (Rlt_dec s 0) as [L | G'].
  - apply bind_Fin_inv in H as (u & _ & H).
    destruct (Rlt_dec u 0) as [L' | G']; [discriminate |].
    injection H as <-. lra.
  - injection H as <-. lra.
Qed.

Lemma focus_root_zero_coefficient (b c : R) : focus_root 0 b c = DivZero.
Proof.
  unfold focus_root.
  destruct (Rlt_dec (b ^ 2 - 4 * 0 * c) 0) as [L | _].
  - exfalso. nra.
  - rewrite fdiv_zero by lra. reflexivity.
Qed.

(** ** The branches of [intersect] *)

Lemma intersect_focus_branch (self : ParabolaOptics) (o d : point) :
  allclose o (0, focus self) = true ->
  intersect self o d =
  (a <- fst d ^ 2 /. (4 * focus self) ;;
   r <- focus_root a (- snd d) (- focus self) ;;
   match r with
   | None => Fin None
   | Some t => Fin (Some ((0 + t * fst d, focus self + t * snd d), t))
   end).
Proof. intros H. unfold intersect. rewrite H. reflexivity. Qed.

Lemma intersect_vertical_branch (self : ParabolaOptics) (o d : point) :
  allclose o (0, focus self) = false -> fst d = 0 ->
  intersect self o d =
  (y_parabola <- parabola_y self (fst o) ;;
   r <- vertical_root y_parabola (snd o) (snd d) ;;
   match r with
   | None => Fin None
   | Some t => Fin (Some ((fst o, y_parabola), t))
   end).
Proof.
  intros H E. unfold intersect. rewrite H.
  destruct (Req_dec_T (fst d) 0) as [_ | N]; [reflexivity | contradiction].
Qed.

Lemma intersect_general_branch (self : ParabolaOptics) (o d : point) :
  allclose o (0, focus self) = false -> fst d <> 0 ->
  intersect self o d =
  (r <- general_root (fst d ^ 2)
          (2 * fst o * fst d - 4 * focus self * snd d)
          (fst o ^ 2 - 4 * focus self * snd o) ;;
   match r with
   | None => Fin None
   | Some t => Fin (Some ((fst o + t * fst d, snd o + t * snd d), t))
   end).
Proof.
  intros H E. unfold intersect. rewrite H.
  destruct (Req_dec_T (fst d) 0) as [Z | _]; [contradiction | reflexivity].
Qed.

(** On the focus branch a ray with [dx = 0] makes the coefficient [a] zero,
    and the root formula divides by [2 * a]. *)
Lemma focus_branch_vertical_ray (self : ParabolaOptics) (o d : point) :
  allclose o (0, focus self) = true -> fst d = 0 ->
  reflect_ray self o d = DivZero.
Proof.
  intros H E. unfold reflect_ray. rewrite intersect_focus_branch by assumption.
  rewrite E. destruct (Req_dec_T (focus self) 0) as [Z | N].
  - rewrite fdiv_zero by lra. reflexivity.
  - rewrite fdiv_nonzero by lra. cbn [bind].
    replace (0 ^ 2 / (4 * focus self)) with 0 by (field; assumption).
    rewrite focus_root_zero_coefficient. reflexivity.
Qed.

(** Every returned intersection has [t >= 0] and lies at parameter [t]
    from [ray_base]. *)
Lemma intersect_Some_inv (self : ParabolaOptics) (o d p : point) (t : R) :
  intersect self o d = Fin (Some (p, t)) ->
  0 <= t /\
  p = (fst (ray_base self o) + t * fst d, snd (ray_base self o) + t * snd d).
Proof.
  unfold ray_base. destruct (allclose o (0, focus self)) eqn:C.
  - rewrite intersect_focus_branch by assumption. intros H.
    apply bind_Fin_inv in H as (a & _ & H).
    apply bind_Fin_inv in H as (r & Hr & H).
    destruct r as [s |]; [| discriminate]. injection H as <- <-.
    apply focus_root_Some_inv in Hr. split; [assumption | reflexivity].
  - destruct (Req_dec_T (fst d) 0) as [Z | N].
    + rewrite intersect_vertical_branch by assumption. intros H.
      apply bind_Fin_inv in H as (y & _ & H).
      apply bind_Fin_inv in H as (r & Hr & H).
      destruct r as [s |]; [| discriminate]. injection H as <- <-.
      apply vertical_root_Some_inv in Hr as (Hdy & Hs & Hpos).
      split; [lra |]. rewrite Z, Hs. apply f_equal2; field; assumption.
    + rewrite intersect_general_branch by assumption. intros H.
      apply bind_Fin_inv in H as (r & Hr & H).
      destruct r as [s |]; [| discriminate]. injection H as <- <-.
      apply general_root_Some_inv in Hr. split; [assumption | reflexivity].
Qed.

(** ** Ray bundles *)

Lemma linspace_length (start stop : R) (num : nat) :
  length (linspace start stop num) = num.
Proof.
  unfold linspace. destruct num as [| [| n]]; try reflexivity.
  now rewrite length_map, length_seq.
Qed.

Lemma linspace_nth (start stop : R) (num i : nat) :
  (i < num)%nat ->
  nth_error (linspace start stop num) i =
  Some (match num with
        | 1%nat => start
        | _ => start + INR i * ((stop - start) / INR (num - 1))
        end).
Proof.
  intros Hi. unfold linspace. destruct num as [| [| n]].
  - lia.
  - replace i with 0%nat by lia. reflexivity.
  - rewrite nth_error_map, nth_error_seq.
    destruct (Nat.ltb_spec i (S (S n))) as [_ | Hge]; [reflexivity | lia].
Qed.

Lemma focal_ray_defined (self : ParabolaOptics) (x : R) :
  focus self <> 0 ->
  exists ray_dir, focal_ray self x = Fin ((0, focus self), ray_dir).
Proof.
  intros Hf. unfold focal_ray, parabola_y.
  rewrite fdiv_nonzero by lra. cbn [bind].
  set (v := (x - 0, x ^ 2 / (4 * focus self) - focus self)).
  assert (Hv : norm v <> 0).
  { intros Hn. apply norm_zero_inv in Hn as [Hx Hy]. unfold v in Hx, Hy.
    simpl in Hx, Hy. assert (x = 0) as -> by lra.
    apply Hf. replace (0 * (0 * 1) / (4 * focus self)) with 0 in Hy by (field; assumption).
    lra. }
  rewrite vdiv_nonzero by assumption. cbn [bind]. eexists. reflexivity.
Qed.

Lemma focal_ray_degenerate (self : ParabolaOptics) (x : R) :
  focus self = 0 -> focal_ray self x = DivZero.
Proof.
  intros Hf. unfold focal_ray, parabola_y. rewrite fdiv_zero by lra. reflexivity.
Qed.

Lemma collect_focal_rays (self : ParabolaOptics) (xs : list R) :
  focus self <> 0 ->
  exists l, collect (map (focal_ray self) xs) = Fin l /\
            map fst l = map (fun _ => (0, focus self)) xs.
Proof.
  intros Hf. induction xs as [| x xs (l & Hl & Hs)]; simpl.
  - exists []. split; reflexivity.
  - destruct (focal_ray_defined self x Hf) as (v & ->). cbn [bind].
    rewrite Hl. cbn [bind]. eexists. split; [reflexivity |].
    simpl. now rewrite Hs.
Qed.

Lemma linspace_nonempty (start stop : R) (num : nat) :
  (0 < num)%nat -> exists x xs, linspace start stop num = x :: xs.
Proof.
  intros Hn. pose proof (linspace_length start stop num) as L.
  destruct (linspace start stop num) as [| x xs]; [simpl in L; lia |].
  now exists x, xs.
Qed.

Lemma focal_rays_depend_on_focus (o1 o2 : ParabolaOptics) (num_rays : nat) :
  focus o1 <> focus o2 -> (0 < num_rays)%nat ->
  generate_focal_rays o1 num_rays <> generate_focal_rays o2 num_rays.
Proof.
  intros Hne Hn. unfold generate_focal_rays.
  destruct (linspace_nonempty (-3) 3 num_rays Hn) as (x & xs & ->).
  destruct (Req_dec_T (focus o1) 0) as [Z1 | N1];
    destruct (Req_dec_T (focus o2) 0) as [Z2 | N2].
  - exfalso. apply Hne. now rewrite Z1, Z2.
  - destruct (collect_focal_rays o2 (x :: xs) N2) as (l & -> & _).
    simpl. rewrite focal_ray_degenerate by assumption. discriminate.
  - destruct (collect_focal_rays o1 (x :: xs) N1) as (l & -> & _).
    simpl. rewrite focal_ray_degenerate by assumption. discriminate.
  - destruct (collect_focal_rays o1 (x :: xs) N1) as (l1 & -> & H1).
    destruct (collect_focal_rays o2 (x :: xs) N2) as (l2 & -> & H2).
    intros E. injection E as ->. rewrite H1 in H2. simpl in H2.
    injection H2 as E _. apply Hne. exact E.
Qed.

(** ** Evaluating square roots *)

Lemma sqrt_eq (x c : R) : 0 <= c -> c * c = x -> sqrt x = c.
Proof. intros Hc <-. apply sqrt_square. assumption. Qed.

Lemma norm_eq (v : point) (c : R) :
  0 <= c -> c * c = fst v ^ 2 + snd v ^ 2 -> norm v = c.
Proof. intros Hc E. unfold norm. apply sqrt_eq; assumption. Qed.

Lemma sqr_pos_nz (x : R) : x <> 0 -> 0 < x ^ 2.
Proof. intros Hx. nra. Qed.

Lemma norm_ge_snd (v : point) : - snd v <= norm v.
Proof.
  pose proof (norm_nonneg v) as Hn. pose proof (norm_sqr v) as Hs.
  destruct (Rle_dec (- snd v) (norm v)) as [L | G]; [assumption |].
  exfalso. nra.
Qed.

Lemma norm_gt_snd (v : point) : fst v <> 0 -> - snd v < norm v.
Proof.
  intros Hx. pose proof (norm_nonneg v) as Hn. pose proof (norm_sqr v) as Hs.
  destruct (Rlt_dec (- snd v) (norm v)) as [L | G]; [assumption |].
  exfalso. assert (0 < fst v ^ 2) by (apply sqr_pos_nz; assumption). nra.
Qed.

(** ** The focus branch, for [f > 0] and [dx <> 0] *)

Lemma focus_t_pos (self : ParabolaOptics) (d : point) :
  0 < focus self -> fst d <> 0 -> 0 < focus_t self d.
Proof.
  intros Hf Hx. unfold focus_t. pose proof (norm_gt_snd d Hx).
  assert (0 < fst d ^ 2) by (apply sqr_pos_nz; assumption).
  apply Rdiv_lt_0_compat; nra.
Qed.

Lemma intersect_focus_forward (self : ParabolaOptics) (o d : point) :
  0 < focus self -> fst d <> 0 -> allclose o (0, focus self) = true ->
  intersect self o d =
  Fin (Some ((0 + focus_t self d * fst d, focus self + focus_t self d * snd d),
             focus_t self d)).
Proof.
  intros Hf Hx C. rewrite intersect_focus_branch by assumption.
  assert (Hsq : 0 < fst d ^ 2) by (apply sqr_pos_nz; assumption).
  rewrite fdiv_nonzero by lra. cbn [bind].
  set (a := fst d ^ 2 / (4 * focus self)).
  assert (Ha : 0 < a) by (unfold a; apply Rdiv_lt_0_compat; lra).
  assert (Hdisc : (- snd d) ^ 2 - 4 * a * - focus self = fst d ^ 2 + snd d ^ 2)
    by (unfold a; field; lra).
  assert (Ht : (- - snd d + sqrt ((- snd d) ^ 2 - 4 * a * - focus self)) / (2 * a)
               = focus_t self d).
  { rewrite Hdisc. fold (norm d). unfold focus_t, a. field. split; lra. }
  pose proof (focus_t_pos self d Hf Hx) as Hpos.
  rewrite focus_root_first.
  - cbn [bind]. rewrite Ht. reflexivity.
  - lra.
  - rewrite Hdisc. nra.
  - rewrite Ht. lra.
Qed.

Lemma reflect_ray_focus_forward (self : ParabolaOptics) (o d : point) :
  0 < focus self -> fst d <> 0 -> allclose o (0, focus self) = true ->
  reflect_ray self o d =
  Fin (Some ((0 + focus_t self d * fst d, focus self + focus_t self d * snd d),
             mirror (0 + focus_t self d * fst d, - (2 * focus self))
                    (fst d / norm d, snd d / norm d),
             focus_t self d)).
Proof.
  intros Hf Hx C.
  apply reflect_ray_of_hit.
  - lra.
  - apply norm_pos_fst. assumption.
  - apply intersect_focus_forward; assumption.
Qed.

(** ** Concrete closeness tests *)

Ltac solve_abs := unfold atol, rtol, Rabs; repeat destruct (Rcase_abs _); lra.

Lemma allclose_intro (a b : point) :
  Rabs (fst a - fst b) <= atol + rtol * Rabs (fst b) ->
  Rabs (snd a - snd b) <= atol + rtol * Rabs (snd b) ->
  allclose a b = true.
Proof. intros H1 H2. apply allclose_true. split; assumption. Qed.

Lemma far_in_y (a b : point) :
  atol + rtol * Rabs (snd b) < Rabs (snd a - snd b) -> allclose a b = false.
Proof. intros H. apply allclose_false. right. assumption. Qed.

Lemma far_in_x (a b : point) :
  atol + rtol * Rabs (fst b) < Rabs (fst a - fst b) -> allclose a b = false.
Proof. intros H. apply allclose_false. left. assumption. Qed.

(** The ray from [(0, 1.00001)] with direction [(1, 0)], for [f = 1]:
    the origin passes the closeness test, the focus branch solves
    [t^2/4 - 1 = 0] and returns the hit [(2, 1)] at [t = 2]. *)
Lemma near_focus_example :
  reflect_ray (init 1) (0, 100001 / 100000) (1, 0) =
  Fin (Some ((2, 1), (0, 1), 2)).
Proof.
  assert (Hn : norm (1, 0) = 1) by (apply norm_eq; simpl; lra).
  assert (Ht : focus_t (init 1) (1, 0) = 2).
  { unfold focus_t. rewrite Hn. simpl. lra. }
  rewrite reflect_ray_focus_forward.
  - rewrite Ht, Hn. unfold mirror, dot. cbn [fst snd focus init].
    apply f_equal. apply f_equal.
    apply f_equal2; [apply f_equal2 | reflexivity]; apply f_equal2; field.
  - simpl; lra.
  - simpl; lra.
  - apply allclose_intro; simpl; solve_abs.
Qed.

(** * Construction and mutation *)

Lemma init_directrix (f : R) : directrix (init f) = - focus (init f).
Proof. reflexivity. Qed.

Lemma set_focus_keeps_directrix (self : ParabolaOptics) (f : R) :
  directrix (set_focus self f) = directrix self.
Proof. reflexivity. Qed.

(** C9 (the code breaks the invariant).  After [ParabolaOptics(1.0)] the
    directrix is [-focus]; after the assignment [optics.focus = 2.0] of
    [update] the directrix attribute is still [-1], not [-focus = -2]:
    it is stale. *)
Theorem directrix_stale_after_set_focus :
  directrix (init 1) = - focus (init 1) /\
  directrix (set_focus (init 1) 2) = -1 /\
  directrix (set_focus (init 1) 2) <> - focus (set_focus (init 1) 2).
Proof.
  repeat split; try reflexivity. simpl. lra.
Qed.

(** C4, as stated, fails: nothing is rejected.  A parabola with focus 0 is
    built, and its curve then divides by zero; the focus can be set to 0
    afterwards; a zero-length direction from the focus runs into 0/0, and
    from elsewhere it gets the ordinary no-intersection answer. *)
Lemma degenerate_inputs_not_rejected :
  focus (init 0) = 0 /\
  parabola_y (init 0) 1 = DivZero /\
  focus (set_focus (init 1) 0) = 0 /\
  reflect_ray (init 1) (0, 1) (0, 0) = DivZero /\
  reflect_ray (init 1) (2, 10) (0, 0) = Fin None.
Proof.
  split; [reflexivity |]. split.
  { unfold parabola_y. apply fdiv_zero. simpl. lra. }
  split; [reflexivity |]. split.
  { apply focus_branch_vertical_ray; [| reflexivity].
    apply allclose_intro; simpl; solve_abs. }
  apply reflect_ray_of_miss. rewrite intersect_vertical_branch.
  - unfold parabola_y. rewrite fdiv_nonzero by (simpl; lra). cbn [bind].
    unfold vertical_root. cbn [snd].
    destruct (Req_dec_T 0 0) as [_ | N]; [reflexivity | contradiction].
  - apply far_in_x; simpl; solve_abs.
  - reflexivity.
Qed.

(** C4, amended.  No input is rejected: [__init__] stores any focus [f]
    and the directrix [-f]; the assignment to [focus] stores any value;
    and for a parabola with nonzero focus, [reflect_ray] on the zero
    direction from an origin that is not close to the focus returns [None],
    the ordinary no-intersection answer. *)
Theorem degenerate_inputs_accepted :
  (forall f, focus (init f) = f /\ directrix (init f) = - f) /\
  (forall self f, focus (set_focus self f) = f) /\
  (forall self o, focus self <> 0 -> allclose o (0, focus self) = false ->
                  reflect_ray self o (0, 0) = Fin None).
Proof.
  split; [intros f; split; reflexivity |].
  split; [intros self f; reflexivity |].
  intros self o Hf C. apply reflect_ray_of_miss.
  rewrite intersect_vertical_branch by (assumption || reflexivity).
  unfold parabola_y. rewrite fdiv_nonzero by lra. cbn [bind].
  unfold vertical_root. cbn [snd].
  destruct (Req_dec_T 0 0) as [_ | N]; [reflexivity | contradiction].
Qed.

Lemma degenerate_inputs_accepted_witness :
  focus (init (-1)) <> 0 /\
  allclose (2, 10) (0, focus (init (-1))) = false /\
  reflect_ray (init (-1)) (2, 10) (0, 0) = Fin None.
Proof.
  assert (Hf : focus (init (-1)) <> 0) by (simpl; lra).
  assert (C : allclose (2, 10) (0, focus (init (-1))) = false)
    by (apply far_in_x; simpl; solve_abs).
  split; [exact Hf |]. split; [exact C |].
  exact (proj2 (proj2 degenerate_inputs_accepted) (init (-1)) (2, 10) Hf C).
Defined.

(** * The focus branch with a vertical ray *)

(** C5 (the code divides by zero).  The ray from the focus [(0, 1)] of the
    parabola with [f = 1] straight down, direction [(0, -1)], takes the
    focus branch with [a = 0], and the root formula divides by [2 * a]. *)
Theorem focus_ray_straight_down_divides_by_zero :
  reflect_ray (init 1) (0, 1) (0, -1) = DivZero.
Proof.
  apply focus_branch_vertical_ray; [| reflexivity].
  apply allclose_refl.
Qed.

(** * Ray bundles and the focal length *)

(** C10.  [generate_parallel_rays] gives the same rays whatever the focus:
    [num_rays] rays, the [i]-th from [(x_i, 10)] with direction [(0, -1)],
    the [x_i] evenly spaced over [x_range]; [generate_focal_rays] does
    depend on the focus: two instances with different focus give different
    bundles as soon as there is one ray. *)
Theorem parallel_rays_independent_of_focus
  (o1 o2 : ParabolaOptics) (num_rays : nat) (x_range : point) :
  generate_parallel_rays o1 num_rays x_range =
  generate_parallel_rays o2 num_rays x_range /\
  length (generate_parallel_rays o1 num_rays x_range) = num_rays /\
  (forall i, (i < num_rays)%nat ->
     nth_error (generate_parallel_rays o1 num_rays x_range) i =
     Some ((match num_rays with
            | 1%nat => fst x_range
            | _ => fst x_range +
                   INR i * ((snd x_range - fst x_range) / INR (num_rays - 1))
            end, 10), (0, -1))) /\
  (focus o1 <> focus o2 -> (0 < num_rays)%nat ->
   generate_focal_rays o1 num_rays <> generate_focal_rays o2 num_rays).
Proof.
  split; [reflexivity |]. split.
  { unfold generate_parallel_rays. now rewrite length_map, linspace_length. }
  split.
  - intros i Hi. unfold generate_parallel_rays.
    rewrite nth_error_map, linspace_nth by assumption. reflexivity.
  - apply focal_rays_depend_on_focus.
Qed.

Lemma parallel_rays_independent_of_focus_witness :
  nth_error (generate_parallel_rays (init 1) 3 (-3, 3)) 2 =
  Some ((-3 + INR 2 * ((3 - -3) / INR (3 - 1)), 10), (0, -1)) /\
  generate_focal_rays (init 1) 3 <> generate_focal_rays (init 2) 3.
Proof.
  pose proof (parallel_rays_independent_of_focus (init 1) (init 2) 3 (-3, 3))
    as (_ & _ & Hnth & Hfocal).
  split.
  - apply (Hnth 2%nat). lia.
  - apply Hfocal; [simpl; lra | lia].
Defined.

(** * Forward hits *)

(** C7, as stated, fails: for the parabola with [f = 1], the ray from
    [(0, 1.00001)], which [np.allclose] takes for the focus, with
    direction [(1, 0)] gets the hit [(2, 1)] at [t = 2], which is not
    [origin + t * direction = (2, 1.00001)]. *)
Lemma near_focus_hit_off_the_ray :
  reflect_ray (init 1) (0, 100001 / 100000) (1, 0) =
  Fin (Some ((2, 1), (0, 1), 2)) /\
  (2, 1) <> (0 + 2 * 1, 100001 / 100000 + 2 * 0).
Proof.
  split; [apply near_focus_example |].
  intros E. injection E as _ E. lra.
Qed.

(** * Unit reflected directions *)

(** C8 (the code returns no unit direction).  The direction [(0, -1)] is
    finite and of length 1, yet for [f = 1] the ray from the focus [(0, 1)]
    with that direction divides by zero on the focus branch: what the call
    returns holds no reflected direction of norm 1. *)
Theorem focus_axis_ray_has_no_unit_reflection :
  norm (0, -1) = 1 /\
  allclose (0, 1) (0, focus (init 1)) = true /\
  reflect_ray (init 1) (0, 1) (0, -1) = DivZero.
Proof.
  split; [apply norm_eq; simpl; lra |].
  split; [apply allclose_refl |].
  apply focus_branch_vertical_ray; [apply allclose_refl | reflexivity].
Qed.

(** X21.  Whenever [reflect_ray] divides by no zero and returns a triple,
    the reflected direction has Euclidean norm 1. *)
Theorem reflected_direction_is_unit
  (self : ParabolaOptics) (o d p r : point) (t : R) :
  reflect_ray self o d = Fin (Some (p, r, t)) -> norm r = 1.
Proof.
  intros H. apply reflect_ray_Some_inv in H as [_ Hr].
  apply reflect_at_unit in Hr. assumption.
Qed.

(** * Rays from the focus *)

(** A ray from the focus towards the curve point of abscissa [x <> 0] hits
    that point and is reflected straight up, along the axis. *)
Lemma focus_ray_reflection (f x k : R) :
  0 < f -> x <> 0 -> 0 < k ->
  reflect_ray (init f) (0, f) (k * x, k * (x ^ 2 / (4 * f) - f)) =
  Fin (Some ((x, x ^ 2 / (4 * f)), (0, 1), / k)).
Proof.
  intros Hf Hx Hk.
  set (d := (k * x, k * (x ^ 2 / (4 * f) - f))).
  assert (Hsq : 0 < x ^ 2) by (apply sqr_pos_nz; assumption).
  assert (Hy : 0 < x ^ 2 / (4 * f)) by (apply Rdiv_lt_0_compat; lra).
  assert (Hn : norm d = k * (x ^ 2 / (4 * f) + f)).
  { apply norm_eq; [nra |]. unfold d. cbn [fst snd]. field. lra. }
  assert (Ht : focus_t (init f) d = / k).
  { unfold focus_t. rewrite Hn. unfold d. cbn [fst snd focus init].
    field. repeat split; lra. }
  rewrite reflect_ray_focus_forward.
  - rewrite Ht, Hn. unfold d, mirror, dot. cbn [fst snd focus init].
    apply f_equal. apply f_equal.
    assert (Hden : x ^ 2 + 4 * f ^ 2 <> 0) by nra.
    assert (Hden' : x ^ 2 / (4 * f) + f <> 0) by lra.
    apply f_equal2; [apply f_equal2 | reflexivity].
    + apply f_equal2; field; repeat split; lra.
    + apply f_equal2; field; repeat split; try lra; nra.
  - simpl. lra.
  - unfold d. cbn [fst]. nra.
  - apply allclose_refl.
Qed.

Lemma focus_ray_example :
  reflect_ray (init 1) (0, 1) (2, 0) = Fin (Some ((2, 1), (0, 1), 1)).
Proof.
  pose proof (focus_ray_reflection 1 2 1) as H.
  replace (1 * 2) with 2 in H by lra.
  replace (1 * (2 ^ 2 / (4 * 1) - 1)) with 0 in H by lra.
  replace (2 ^ 2 / (4 * 1)) with 1 in H by lra.
  replace (/ 1) with 1 in H by lra.
  apply H; lra.
Qed.

(** C2, as stated, fails: for [f = 1] the ray from the focus [(0, 1)]
    towards the curve point [(2, 1)], direction [(2, 0)], is reflected
    in the direction [(0, 1)], whose y-component is not 0 and whose
    x-component is not positive. *)
Lemma focus_ray_reflected_along_axis :
  exists p r t,
    reflect_ray (init 1) (0, 1) (2, 2 ^ 2 / (4 * 1) - 1) = Fin (Some (p, r, t)) /\
    snd r <> 0 /\ ~ 0 < fst r.
Proof.
  exists (2, 1), (0, 1), 1. split.
  - replace (2 ^ 2 / (4 * 1) - 1) with 0 by lra. apply focus_ray_example.
  - simpl. split; lra.
Qed.

(** C2, amended.  For [f > 0], [x <> 0] and [k > 0], the ray from the
    focus [(0, f)] with direction [k * (x, x^2/(4f) - f)] hits the curve
    point [(x, x^2/(4f))] at [t = 1/k], and the reflected direction is
    [(0, 1)]: x-component 0, y-component 1, parallel to the axis. *)
Theorem focus_ray_reflects_parallel_to_axis (f x k : R) :
  0 < f -> x <> 0 -> 0 < k ->
  reflect_ray (init f) (0, f) (k * x, k * (x ^ 2 / (4 * f) - f)) =
  Fin (Some ((x, x ^ 2 / (4 * f)), (0, 1), / k)).
Proof. exact (focus_ray_reflection f x k). Qed.

Lemma focus_ray_reflects_parallel_to_axis_witness :
  reflect_ray (init 2) (0, 2) (3 * (-4), 3 * ((-4) ^ 2 / (4 * 2) - 2)) =
  Fin (Some ((-4, (-4) ^ 2 / (4 * 2)), (0, 1), / 3)).
Proof.
  apply (focus_ray_reflects_parallel_to_axis 2 (-4) 3); lra.
Defined.

(** * Vertical rays from above *)

Lemma norm_down : norm (0, -1) = 1.
Proof. apply norm_eq; simpl; lra. Qed.

(** C1 (the code divides by zero).  With [f = 9.9999] the origin
    [(0, 10)] is above the curve and is not the focus [(0, f)], yet
    [np.allclose] takes it for the focus, and the vertical ray then divides
    by zero on the focus branch, which has no case for [dx = 0]: no hit at
    [(0, 0)] is returned. *)
Lemma vertical_ray_near_focus_divides_by_zero :
  0 < 99999 / 10000 /\
  0 ^ 2 / (4 * (99999 / 10000)) < 10 /\
  (0, 10) <> (0, 99999 / 10000) /\
  reflect_ray (init (99999 / 10000)) (0, 10) (0, -1) = DivZero.
Proof.
  split; [lra |]. split; [lra |]. split.
  - intros E. injection E as E. lra.
  - apply focus_branch_vertical_ray; [| reflexivity].
    apply allclose_intro; simpl; solve_abs.
Qed.

(** X20.  For [f > 0] and [x0^2/(4f) < 10], when [np.allclose]
    does not take the origin [(x0, 10)] for the focus [(0, f)], the
    vertical ray from [(x0, 10)] with direction [(0, -1)] hits the curve at
    [(x0, x0^2/(4f))] with [t = 10 - x0^2/(4f)], and the reflected
    direction is a positive multiple [k] of the vector from the hit point
    to the focus. *)
Theorem vertical_ray_reflects_through_focus (f x0 : R) :
  0 < f -> x0 ^ 2 / (4 * f) < 10 -> allclose (x0, 10) (0, f) = false ->
  exists k, 0 < k /\
    reflect_ray (init f) (x0, 10) (0, -1) =
    Fin (Some ((x0, x0 ^ 2 / (4 * f)),
               (k * (0 - x0), k * (f - x0 ^ 2 / (4 * f))),
               10 - x0 ^ 2 / (4 * f))).
Proof.
  intros Hf Hy C.
  assert (Hden : 0 < x0 ^ 2 + 4 * f ^ 2) by nra.
  assert (Ht : (x0 ^ 2 / (4 * f) - 10) / -1 = 10 - x0 ^ 2 / (4 * f))
    by (field; lra).
  assert (Hi : intersect (init f) (x0, 10) (0, -1) =
               Fin (Some ((x0, x0 ^ 2 / (4 * f)), 10 - x0 ^ 2 / (4 * f)))).
  { rewrite intersect_vertical_branch; [| exact C | reflexivity].
    unfold parabola_y. cbn [fst snd focus init].
    rewrite fdiv_nonzero by lra. cbn [bind].
    rewrite vertical_root_forward; [| lra | rewrite Ht; lra].
    cbn [bind]. rewrite Ht. reflexivity. }
  exists (4 * f / (x0 ^ 2 + 4 * f ^ 2)). split.
  - apply Rdiv_lt_0_compat; lra.
  - rewrite (reflect_ray_of_hit _ _ _ _ _) with (3 := Hi).
    + rewrite norm_down. unfold mirror, dot. cbn [fst snd focus init].
      apply f_equal. apply f_equal.
      apply f_equal2; [apply f_equal2 | reflexivity]; [reflexivity |].
      apply f_equal2; field; lra.
    + simpl. lra.
    + rewrite norm_down. lra.
Qed.

Lemma vertical_ray_reflects_through_focus_witness :
  exists k, 0 < k /\
    reflect_ray (init 1) (2, 10) (0, -1) =
    Fin (Some ((2, 2 ^ 2 / (4 * 1)),
               (k * (0 - 2), k * (1 - 2 ^ 2 / (4 * 1))),
               10 - 2 ^ 2 / (4 * 1))).
Proof.
  apply (vertical_ray_reflects_through_focus 1 2).
  - lra.
  - lra.
  - apply far_in_x; simpl; solve_abs.
Defined.

(** * The general branch *)

(** C3, as stated, fails: for [f = 1] the ray from [(0, 1.00001)] with
    direction [(1, 0)] has [dx <> 0] and an origin that is not the focus;
    the smaller root of the stated quadratic is negative, so the claim has
    [None] returned; but [np.allclose] takes the origin for the focus and
    the focus branch returns a hit. *)
Lemma near_focus_ray_not_on_general_branch :
  let self := init 1 in
  let o := (0, 100001 / 100000) in
  let d := (1, 0) in
  let a := fst d ^ 2 in
  let b := 2 * fst o * fst d - 4 * focus self * snd d in
  let c := fst o ^ 2 - 4 * focus self * snd o in
  fst d <> 0 /\ o <> (0, focus self) /\
  0 <= b ^ 2 - 4 * a * c /\
  (- b - sqrt (b ^ 2 - 4 * a * c)) / (2 * a) < 0 /\
  reflect_ray self o d <> Fin None.
Proof.
  cbv zeta. cbn [fst snd focus init].
  split; [lra |]. split; [intros E; injection E as E; lra |].
  split; [lra |]. split.
  - assert (0 < sqrt ((2 * 0 * 1 - 4 * 1 * 0) ^ 2 -
                      4 * 1 ^ 2 * (0 ^ 2 - 4 * 1 * (100001 / 100000))))
      by (apply sqrt_lt_R0; lra).
    apply Ropp_lt_cancel. rewrite Ropp_0, <- Rdiv_opp_l.
    apply Rdiv_lt_0_compat; lra.
  - rewrite near_focus_example. discriminate.
Qed.

(** C3, amended.  For a ray with [dx <> 0] whose origin [np.allclose] does
    not take for the focus, with [a = dx^2], [b = 2 x0 dx - 4 f dy] and
    [c = x0^2 - 4 f y0]: [reflect_ray] returns [None] when the discriminant
    is negative; otherwise, with [t] the smaller root, it returns [None]
    when [t < 0], and when [t >= 0] the intersection is the point of the ray
    at parameter [t], returned with [t] when [f <> 0]. *)
Theorem general_branch_takes_smaller_root
  (self : ParabolaOptics) (o d : point) :
  fst d <> 0 -> allclose o (0, focus self) = false ->
  let a := fst d ^ 2 in
  let b := 2 * fst o * fst d - 4 * focus self * snd d in
  let c := fst o ^ 2 - 4 * focus self * snd o in
  let t := (- b - sqrt (b ^ 2 - 4 * a * c)) / (2 * a) in
  (b ^ 2 - 4 * a * c < 0 -> reflect_ray self o d = Fin None) /\
  (0 <= b ^ 2 - 4 * a * c -> t < 0 -> reflect_ray self o d = Fin None) /\
  (0 <= b ^ 2 - 4 * a * c -> 0 <= t ->
   intersect self o d =
   Fin (Some ((fst o + t * fst d, snd o + t * snd d), t)) /\
   (focus self <> 0 ->
    exists r, reflect_ray self o d =
              Fin (Some ((fst o + t * fst d, snd o + t * snd d), r, t)))).
Proof.
  intros Hx C a b c t.
  assert (Ha : a <> 0) by (unfold a; pose proof (sqr_pos_nz _ Hx); lra).
  pose proof (intersect_general_branch self o d C Hx) as Hi.
  fold a b c in Hi.
  split; [| split].
  - intros Hneg. apply reflect_ray_of_miss. rewrite Hi.
    rewrite general_root_no_real_root by assumption. reflexivity.
  - intros Hdisc Ht. apply reflect_ray_of_miss. rewrite Hi.
    rewrite general_root_backward by assumption. reflexivity.
  - intros Hdisc Ht.
    assert (Hhit : intersect self o d =
                   Fin (Some ((fst o + t * fst d, snd o + t * snd d), t))).
    { rewrite Hi. rewrite general_root_forward by assumption. reflexivity. }
    split; [exact Hhit |].
    intros Hf. eexists. apply reflect_ray_of_hit.
    + assumption.
    + apply norm_pos_fst; assumption.
    + exact Hhit.
Qed.

Lemma general_branch_takes_smaller_root_witness :
  exists r, reflect_ray (init 1) (-5, 4) (1, 0) = Fin (Some ((-4, 4), r, 1)).
Proof.
  assert (Hx : fst (1, 0) <> 0) by (simpl; lra).
  assert (C : allclose (-5, 4) (0, focus (init 1)) = false)
    by (apply far_in_x; simpl; solve_abs).
  pose proof (general_branch_takes_smaller_root (init 1) (-5, 4) (1, 0) Hx C)
    as (_ & _ & H).
  cbn [fst snd focus init] in H.
  assert (Hs : sqrt ((2 * -5 * 1 - 4 * 1 * 0) ^ 2 -
                     4 * 1 ^ 2 * ((-5) ^ 2 - 4 * 1 * 4)) = 8)
    by (apply sqrt_eq; lra).
  rewrite Hs in H.
  replace ((- (2 * -5 * 1 - 4 * 1 * 0) - 8) / (2 * 1 ^ 2)) with 1 in H by lra.
  replace (-5 + 1 * 1) with (-4) in H by lra.
  replace (4 + 1 * 0) with 4 in H by lra.
  apply H; lra.
Defined.

(** * Which values of [t] each branch accepts *)



(** * Witness for the unit-norm theorem *)

Lemma reflected_direction_is_unit_witness : norm (0, 1) = 1.
Proof.
  apply (reflected_direction_is_unit (init 1) (0, 1) (2, 0) (2, 1) (0, 1) 1).
  apply focus_ray_example.
Defined.

(** * Further properties of the geometry *)

(** ** The returned parameter solves the branch's quadratic *)

Lemma focus_root_is_root (a b c t : R) :
  focus_root a b c = Fin (Some t) -> a * t ^ 2 + b * t + c = 0.
Proof.
  unfold focus_root.
  destruct (Rlt_dec (b ^ 2 - 4 * a * c) 0) as [L | G]; [discriminate |].
  assert (HS : sqrt (b ^ 2 - 4 * a * c) * sqrt (b ^ 2 - 4 * a * c) =
               b ^ 2 - 4 * a * c) by (apply sqrt_sqrt; lra).
  set (S := sqrt (b ^ 2 - 4 * a * c)) in *.
  intros H. apply bind_Fin_inv in H as (s & Hs & H).
  apply fdiv_Fin_inv in Hs as [Ha ->].
  destruct (Rlt_dec ((- b + S) / (2 * a)) 0) as [L | G'].
  - apply bind_Fin_inv in H as (u & Hu & H).
    apply fdiv_Fin_inv in Hu as [_ ->].
    destruct (Rlt_dec ((- b - S) / (2 * a)) 0) as [L' | G']; [discriminate |].
    injection H as <-.
    transitivity ((S * S - (b ^ 2 - 4 * a * c)) / (4 * a)); [field; lra |].
    rewrite HS. field. lra.
  - injection H as <-.
    transitivity ((S * S - (b ^ 2 - 4 * a * c)) / (4 * a)); [field; lra |].
    rewrite HS. field. lra.
Qed.

Lemma general_root_is_root (a b c t : R) :
  general_root a b c = Fin (Some t) -> a * t ^ 2 + b * t + c = 0.
Proof.
  unfold general_root.
  destruct (Rlt_dec (b ^ 2 - 4 * a * c) 0) as [L | G]; [discriminate |].
  assert (HS : sqrt (b ^ 2 - 4 * a * c) * sqrt (b ^ 2 - 4 * a * c) =
               b ^ 2 - 4 * a * c) by (apply sqrt_sqrt; lra).
  set (S := sqrt (b ^ 2 - 4 * a * c)) in *.
  intros H. apply bind_Fin_inv in H as (s & Hs & H).
  apply fdiv_Fin_inv in Hs as [Ha ->].
  destruct (Rlt_dec ((- b - S) / (2 * a)) 0) as [L | G']; [discriminate |].
  injection H as <-.
  transitivity ((S * S - (b ^ 2 - 4 * a * c)) / (4 * a)); [field; lra |].
  rewrite HS. field. lra.
Qed.

Lemma intersect_on_curve (self : ParabolaOptics) (o d p : point) (t : R) :
  focus self <> 0 ->
  intersect self o d = Fin (Some (p, t)) ->
  fst p ^ 2 / (4 * focus self) = snd p.
Proof.
  intros Hf. destruct (allclose o (0, focus self)) eqn:C.
  - rewrite intersect_focus_branch by assumption. intros H.
    apply bind_Fin_inv in H as (a & Ha & H).
    apply fdiv_Fin_inv in Ha as [_ ->].
    apply bind_Fin_inv in H as (r & Hr & H).
    destruct r as [s |]; [| discriminate]. injection H as <- <-.
    apply focus_root_is_root in Hr. cbn [fst snd].
    apply Rminus_diag_uniq.
    transitivity (fst d ^ 2 / (4 * focus self) * s ^ 2 + - snd d * s + - focus self);
      [field; assumption | exact Hr].
  - destruct (Req_dec_T (fst d) 0) as [Z | N].
    + rewrite intersect_vertical_branch by assumption. intros H.
      apply bind_Fin_inv in H as (y & Hy & H).
      apply fdiv_Fin_inv in Hy as [_ ->].
      apply bind_Fin_inv in H as (r & Hr & H).
      destruct r as [s |]; [| discriminate]. injection H as <- <-.
      reflexivity.
    + rewrite intersect_general_branch by assumption. intros H.
      apply bind_Fin_inv in H as (r & Hr & H).
      destruct r as [s |]; [| discriminate]. injection H as <- <-.
      apply general_root_is_root in Hr. cbn [fst snd].
      apply Rminus_diag_uniq.
      transitivity ((fst d ^ 2 * s ^ 2 +
                     (2 * fst o * fst d - 4 * focus self * snd d) * s +
                     (fst o ^ 2 - 4 * focus self * snd o)) / (4 * focus self));
        [field; assumption |].
      rewrite Hr. field. assumption.
Qed.

(** X1.  Whenever [reflect_ray] divides by no zero and returns a hit, the
    hit lies on the parabola: [parabola_y] at the hit's abscissa is the
    hit's ordinate. *)
Theorem hit_lies_on_parabola
  (self : ParabolaOptics) (o d p r : point) (t : R) :
  reflect_ray self o d = Fin (Some (p, r, t)) ->
  parabola_y self (fst p) = Fin (snd p).
Proof.
  intros H. apply reflect_ray_Some_inv in H as [Hi Hr].
  apply reflect_at_Fin_inv in Hr as [Hf _].
  unfold parabola_y. rewrite fdiv_nonzero by lra.
  f_equal. eapply intersect_on_curve; eassumption.
Qed.

Lemma hit_lies_on_parabola_witness :
  parabola_y (init 1) (fst (2, 1)) = Fin (snd (2, 1)).
Proof.
  apply (hit_lies_on_parabola (init 1) (0, 100001 / 100000) (1, 0) (2, 1) (0, 1) 2).
  apply near_focus_example.
Defined.

(** ** When [reflect_ray] divides by zero, and when it returns [None] *)

Lemma norm_gt_snd' (v : point) : fst v <> 0 -> snd v < norm v.
Proof.
  intros Hx. pose proof (norm_nonneg v) as Hn. pose proof (norm_sqr v) as Hs.
  destruct (Rlt_dec (snd v) (norm v)) as [L | G]; [assumption |].
  exfalso. assert (0 < fst v ^ 2) by (apply sqr_pos_nz; assumption). nra.
Qed.

(** With [f < 0] the focus branch falls back to its second root. *)
Lemma intersect_focus_negative (self : ParabolaOptics) (o d : point) :
  focus self < 0 -> fst d <> 0 -> allclose o (0, focus self) = true ->
  exists t, 0 < t /\
    intersect self o d =
    Fin (Some ((0 + t * fst d, focus self + t * snd d), t)).
Proof.
  intros Hf Hx C. rewrite intersect_focus_branch by assumption.
  assert (Hsq : 0 < fst d ^ 2) by (apply sqr_pos_nz; assumption).
  rewrite fdiv_nonzero by lra. cbn [bind].
  set (a := fst d ^ 2 / (4 * focus self)).
  assert (Ha : 0 < - a).
  { unfold a. rewrite <- Rdiv_opp_r. apply Rdiv_lt_0_compat; lra. }
  assert (Hdisc : (- snd d) ^ 2 - 4 * a * - focus self = fst d ^ 2 + snd d ^ 2)
    by (unfold a; field; lra).
  pose proof (norm_gt_snd d Hx) as H1. pose proof (norm_gt_snd' d Hx) as H2.
  assert (Ht1 : (- - snd d + sqrt ((- snd d) ^ 2 - 4 * a * - focus self)) / (2 * a) < 0).
  { rewrite Hdisc. fold (norm d).
    apply Ropp_lt_cancel. rewrite Ropp_0, <- Rdiv_opp_r.
    apply Rdiv_lt_0_compat; lra. }
  assert (Ht2 : 0 < (- - snd d - sqrt ((- snd d) ^ 2 - 4 * a * - focus self)) / (2 * a)).
  { rewrite Hdisc. fold (norm d).
    replace ((- - snd d - norm d) / (2 * a)) with ((norm d - snd d) / (2 * - a))
      by (field; lra).
    apply Rdiv_lt_0_compat; lra. }
  eexists. split; [exact Ht2 |].
  rewrite focus_root_second; [reflexivity | lra | rewrite Hdisc; nra | exact Ht1 | lra].
Qed.

Lemma reflect_ray_defined_of_intersect
  (self : ParabolaOptics) (o d : point) (h : option (point * R)) :
  focus self <> 0 -> (h = None \/ norm d <> 0) ->
  intersect self o d = Fin h ->
  exists res, reflect_ray self o d = Fin res /\ (res = None <-> h = None).
Proof.
  intros Hf Hd Hi. destruct h as [[p t] |].
  - destruct Hd as [Hd | Hd]; [discriminate |].
    rewrite (reflect_ray_of_hit self o d p t Hf Hd Hi).
    eexists. split; [reflexivity |]. split; discriminate.
  - rewrite (reflect_ray_of_miss self o d Hi).
    exists None. split; [reflexivity |]. split; reflexivity.
Qed.

(** Off the focus branch, with [f <> 0], [intersect] divides by no zero,
    and a returned hit has a nonzero direction. *)
Lemma intersect_defined_off_focus (self : ParabolaOptics) (o d : point) :
  focus self <> 0 -> allclose o (0, focus self) = false ->
  exists h, intersect self o d = Fin h /\ (h = None \/ norm d <> 0).
Proof.
  intros Hf C. destruct (Req_dec_T (fst d) 0) as [Z | N].
  - rewrite intersect_vertical_branch by assumption.
    unfold parabola_y. rewrite fdiv_nonzero by lra. cbn [bind].
    unfold vertical_root. destruct (Req_dec_T (snd d) 0) as [Zy | Ny].
    + cbn [bind]. exists None. split; [reflexivity | left; reflexivity].
    + rewrite fdiv_nonzero by assumption. cbn [bind].
      destruct (Rle_dec _ 0); cbn [bind]; eexists; (split; [reflexivity |]).
      * left; reflexivity.
      * right. apply norm_pos_snd. assumption.
  - rewrite intersect_general_branch by assumption.
    assert (Ha : fst d ^ 2 <> 0) by (pose proof (sqr_pos_nz _ N); lra).
    unfold general_root. destruct (Rlt_dec _ 0).
    + cbn [bind]. exists None. split; [reflexivity | left; reflexivity].
    + rewrite fdiv_nonzero by lra. cbn [bind].
      destruct (Rlt_dec _ 0); cbn [bind]; eexists; (split; [reflexivity |]).
      * left; reflexivity.
      * right. apply norm_pos_fst. assumption.
Qed.

Lemma intersect_focus_hits (self : ParabolaOptics) (o d : point) :
  focus self <> 0 -> fst d <> 0 -> allclose o (0, focus self) = true ->
  exists p t, 0 < t /\ intersect self o d = Fin (Some (p, t)).
Proof.
  intros Hf Hx C. destruct (Rlt_dec (focus self) 0) as [L | G].
  - destruct (intersect_focus_negative self o d L Hx C) as (t & Ht & Hi).
    eexists _, t. split; [exact Ht | exact Hi].
  - assert (Hpos : 0 < focus self) by lra.
    eexists _, _. split; [apply (focus_t_pos self d Hpos Hx) |].
    apply intersect_focus_forward; assumption.
Qed.

(** X2.  For a parabola with [f <> 0], [reflect_ray] divides by zero
    exactly on the focus branch with [dx = 0]: on every other ray, the
    zero direction included, it returns [None] or a triple. *)
Theorem divides_by_zero_only_on_focus_branch
  (self : ParabolaOptics) (o d : point) :
  focus self <> 0 ->
  (reflect_ray self o d = DivZero <->
   allclose o (0, focus self) = true /\ fst d = 0).
Proof.
  intros Hf. split.
  - intros H. destruct (allclose o (0, focus self)) eqn:C.
    + split; [reflexivity |].
      destruct (Req_dec_T (fst d) 0) as [Z | N]; [assumption | exfalso].
      destruct (intersect_focus_hits self o d Hf N C) as (p & t & _ & Hi).
      rewrite (reflect_ray_of_hit self o d p t Hf (norm_pos_fst d N) Hi) in H.
      discriminate.
    + exfalso.
      destruct (intersect_defined_off_focus self o d Hf C) as (h & Hi & Hd).
      destruct (reflect_ray_defined_of_intersect self o d h Hf Hd Hi)
        as (res & Hres & _).
      rewrite Hres in H. discriminate.
  - intros [C Z]. apply focus_branch_vertical_ray; assumption.
Qed.

Lemma divides_by_zero_only_on_focus_branch_witness :
  reflect_ray (init 2) (5, 1) (0, 0) = DivZero <->
  allclose (5, 1) (0, focus (init 2)) = true /\ fst (0, 0) = 0.
Proof.
  apply (divides_by_zero_only_on_focus_branch (init 2) (5, 1) (0, 0)).
  simpl. lra.
Defined.

(** X3.  The focus branch never returns [None]: a ray whose origin
    [np.allclose] takes for the focus gets a hit with [t > 0] when
    [dx <> 0] and [f <> 0]; otherwise the call divides by zero. *)
Theorem focus_branch_never_misses (self : ParabolaOptics) (o d : point) :
  allclose o (0, focus self) = true ->
  reflect_ray self o d <> Fin None /\
  (focus self <> 0 -> fst d <> 0 ->
   exists p r t, 0 < t /\ reflect_ray self o d = Fin (Some (p, r, t))).
Proof.
  intros C.
  assert (Hhit : focus self <> 0 -> fst d <> 0 ->
                 exists p r t, 0 < t /\
                   reflect_ray self o d = Fin (Some (p, r, t))).
  { intros Hf N.
    destruct (intersect_focus_hits self o d Hf N C) as (p & t & Ht & Hi).
    eexists p, _, t. split; [exact Ht |].
    apply reflect_ray_of_hit; [assumption | apply norm_pos_fst; assumption | exact Hi]. }
  split; [| exact Hhit].
  destruct (Req_dec_T (fst d) 0) as [Z | N].
  - rewrite focus_branch_vertical_ray by assumption. discriminate.
  - destruct (Req_dec_T (focus self) 0) as [Zf | Nf].
    + unfold reflect_ray. rewrite intersect_focus_branch by assumption.
      rewrite fdiv_zero by lra. discriminate.
    + destruct (Hhit Nf N) as (p & r & t & _ & ->). discriminate.
Qed.

Lemma focus_branch_never_misses_witness :
  reflect_ray (init (-1)) (0, -1) (1, 5) <> Fin None /\
  exists p r t, 0 < t /\ reflect_ray (init (-1)) (0, -1) (1, 5) = Fin (Some (p, r, t)).
Proof.
  assert (C : allclose (0, -1) (0, focus (init (-1))) = true)
    by (apply allclose_refl).
  destruct (focus_branch_never_misses (init (-1)) (0, -1) (1, 5) C) as [H1 H2].
  split; [exact H1 |]. apply H2; simpl; lra.
Defined.

(** ** Rays that start inside the parabola *)

(** X4.  For [f > 0], a ray with [dx <> 0] that starts strictly above the
    curve, from an origin [np.allclose] does not take for the focus, gets
    [None]: the roots of its quadratic have opposite signs, and the general
    branch looks at the negative one only. *)
Theorem slanted_ray_from_inside_misses (self : ParabolaOptics) (o d : point) :
  0 < focus self -> allclose o (0, focus self) = false -> fst d <> 0 ->
  fst o ^ 2 / (4 * focus self) < snd o ->
  reflect_ray self o d = Fin None.
Proof.
  intros Hf C Hx Hin. apply reflect_ray_of_miss.
  rewrite intersect_general_branch by assumption.
  set (a := fst d ^ 2).
  set (b := 2 * fst o * fst d - 4 * focus self * snd d).
  set (c := fst o ^ 2 - 4 * focus self * snd o).
  assert (Ha : 0 < a) by (apply sqr_pos_nz; assumption).
  assert (Hc : c < 0).
  { unfold c. apply (Rmult_lt_compat_r (4 * focus self)) in Hin; [| lra].
    replace (fst o ^ 2 / (4 * focus self) * (4 * focus self)) with (fst o ^ 2) in Hin
      by (field; lra).
    lra. }
  assert (Hd : b ^ 2 < b ^ 2 - 4 * a * c) by nra.
  assert (Hd0 : 0 <= b ^ 2 - 4 * a * c) by nra.
  pose proof (sqrt_sqrt _ Hd0) as HS. pose proof (sqrt_pos (b ^ 2 - 4 * a * c)) as HP.
  rewrite general_root_backward; [reflexivity | lra | exact Hd0 |].
  set (S := sqrt (b ^ 2 - 4 * a * c)) in *.
  assert (HbS : - b < S).
  { destruct (Rlt_dec (- b) S) as [L | G]; [assumption | exfalso; nra]. }
  apply Ropp_lt_cancel. rewrite Ropp_0, <- Rdiv_opp_l.
  apply Rdiv_lt_0_compat; lra.
Qed.

Lemma slanted_ray_from_inside_misses_witness :
  reflect_ray (init 1) (0, 5) (1, -1) = Fin None.
Proof.
  apply (slanted_ray_from_inside_misses (init 1) (0, 5) (1, -1)).
  - simpl; lra.
  - apply far_in_y; simpl; solve_abs.
  - simpl; lra.
  - simpl; lra.
Defined.

(** ** The law of reflection *)

Lemma mirror_normal_component (w i : point) :
  dot w w <> 0 -> dot (mirror w i) w = - dot i w.
Proof.
  destruct w as [wx wy], i as [ix iy]. unfold mirror, dot. cbn [fst snd].
  intros Hw. field. exact Hw.
Qed.

Lemma mirror_tangent_component (w i : point) :
  dot w w <> 0 ->
  dot (mirror w i) (- snd w, fst w) = dot i (- snd w, fst w).
Proof.
  destruct w as [wx wy], i as [ix iy]. unfold mirror, dot. cbn [fst snd].
  intros Hw. field. exact Hw.
Qed.

Lemma mirror_involutive (w i : point) :
  dot w w <> 0 -> mirror w (mirror w i) = i.
Proof.
  destruct w as [wx wy], i as [ix iy]. unfold mirror, dot. cbn [fst snd].
  intros Hw. apply f_equal2; field; exact Hw.
Qed.

Lemma parabola_normal_nonzero (self : ParabolaOptics) (x : R) :
  focus self <> 0 -> dot (x, - (2 * focus self)) (x, - (2 * focus self)) <> 0.
Proof. intros Hf. unfold dot. cbn [fst snd]. nra. Qed.

(** X5.  Angle of incidence equals angle of reflection: whenever
    [reflect_ray] divides by no zero and returns a hit
    [p], with the unit incident direction [i = d / |d|], the reflected
    direction [r] keeps the component of [i] along the tangent
    [(2f, x_p)] of the parabola and reverses the component along the normal
    [(x_p, -2f)]. *)
Theorem law_of_reflection
  (self : ParabolaOptics) (o d p r : point) (t : R) :
  reflect_ray self o d = Fin (Some (p, r, t)) ->
  let i := (fst d / norm d, snd d / norm d) in
  dot r (2 * focus self, fst p) = dot i (2 * focus self, fst p) /\
  dot r (fst p, - (2 * focus self)) = - dot i (fst p, - (2 * focus self)).
Proof.
  intros H i. apply reflect_ray_Some_inv in H as [_ Hr].
  destruct (reflect_at_Fin_inv _ _ _ _ Hr) as [Hf Hd].
  rewrite reflect_at_closed in Hr by assumption. injection Hr as <-.
  fold i. pose proof (parabola_normal_nonzero self (fst p) Hf) as Hw.
  split.
  - pose proof (mirror_tangent_component (fst p, - (2 * focus self)) i Hw) as E.
    cbn [fst snd] in E.
    replace (- - (2 * focus self)) with (2 * focus self) in E by ring.
    exact E.
  - apply mirror_normal_component. exact Hw.
Qed.

Lemma law_of_reflection_witness :
  let i := (fst (2, 0) / norm (2, 0), snd (2, 0) / norm (2, 0)) in
  dot (0, 1) (2 * focus (init 1), fst (2, 1)) =
  dot i (2 * focus (init 1), fst (2, 1)) /\
  dot (0, 1) (fst (2, 1), - (2 * focus (init 1))) =
  - dot i (fst (2, 1), - (2 * focus (init 1))).
Proof.
  apply (law_of_reflection (init 1) (0, 1) (2, 0) (2, 1) (0, 1) 1).
  apply focus_ray_example.
Defined.

(** X6.  Light paths are reversible: whenever [reflect_ray] divides by
    no zero and returns a hit, reflecting the returned direction [r] again
    at the same point gives back the unit incident direction [d / |d|]. *)
Theorem reflection_is_reversible
  (self : ParabolaOptics) (o d p r : point) (t : R) :
  reflect_ray self o d = Fin (Some (p, r, t)) ->
  reflect_at self p r = Fin (fst d / norm d, snd d / norm d).
Proof.
  intros H. apply reflect_ray_Some_inv in H as [_ Hr].
  destruct (reflect_at_Fin_inv _ _ _ _ Hr) as [Hf Hd].
  pose proof (reflect_at_unit _ _ _ _ Hr) as Hu.
  rewrite reflect_at_closed in Hr by assumption. injection Hr as Hr.
  rewrite reflect_at_closed by (assumption || (rewrite Hu; lra)).
  rewrite Hu. f_equal.
  replace (fst r / 1, snd r / 1) with r
    by (destruct r; cbn [fst snd]; apply f_equal2; field).
  rewrite <- Hr. apply mirror_involutive.
  apply parabola_normal_nonzero. assumption.
Qed.

Lemma reflection_is_reversible_witness :
  reflect_at (init 1) (2, 1) (0, 1) =
  Fin (fst (2, 0) / norm (2, 0), snd (2, 0) / norm (2, 0)).
Proof.
  apply (reflection_is_reversible (init 1) (0, 1) (2, 0) (2, 1) (0, 1) 1).
  apply focus_ray_example.
Defined.

(** ** The length of the direction vector *)

Lemma div_pos_neg_iff (t k : R) : 0 < k -> (t / k < 0 <-> t < 0).
Proof.
  intros Hk. split; intros H.
  - apply (Rmult_lt_compat_r k) in H; [| assumption].
    replace (t / k * k) with t in H by (field; lra). lra.
  - apply Ropp_lt_cancel. rewrite Ropp_0, <- Rdiv_opp_l.
    apply Rdiv_lt_0_compat; lra.
Qed.

Lemma div_pos_le_iff (t k : R) : 0 < k -> (t / k <= 0 <-> t <= 0).
Proof.
  intros Hk. split; intros H.
  - apply (Rmult_le_compat_r k) in H; [| lra].
    replace (t / k * k) with t in H by (field; lra). lra.
  - destruct (Rle_dec (t / k) 0) as [L | G]; [assumption | exfalso].
    assert (0 < t / k) by lra.
    assert (0 < t / k * k) by (apply Rmult_lt_0_compat; assumption).
    replace (t / k * k) with t in * by (field; lra). lra.
Qed.

Lemma sqrt_scaled (k x : R) : 0 < k -> 0 <= x -> sqrt (k ^ 2 * x) = k * sqrt x.
Proof.
  intros Hk Hx. apply sqrt_eq.
  - pose proof (sqrt_pos x). nra.
  - pose proof (sqrt_sqrt x Hx) as HS.
    replace (k * sqrt x * (k * sqrt x)) with (k ^ 2 * (sqrt x * sqrt x)) by ring.
    rewrite HS. reflexivity.
Qed.

Lemma norm_scaled (k : R) (d : point) :
  0 < k -> norm (k * fst d, k * snd d) = k * norm d.
Proof.
  intros Hk. unfold norm. cbn [fst snd].
  replace ((k * fst d) ^ 2 + (k * snd d) ^ 2)
    with (k ^ 2 * (fst d ^ 2 + snd d ^ 2)) by ring.
  apply sqrt_scaled; [assumption | nra].
Qed.

Lemma focus_root_scaled (k a b c : R) :
  0 < k -> focus_root (k ^ 2 * a) (k * b) c = rescale k (focus_root a b c).
Proof.
  intros Hk. unfold focus_root.
  assert (Hd : (k * b) ^ 2 - 4 * (k ^ 2 * a) * c = k ^ 2 * (b ^ 2 - 4 * a * c))
    by ring.
  rewrite Hd. assert (Hk2 : 0 < k ^ 2) by nra.
  destruct (Rlt_dec (b ^ 2 - 4 * a * c) 0) as [L | G].
  - destruct (Rlt_dec (k ^ 2 * (b ^ 2 - 4 * a * c)) 0) as [_ | G'];
      [reflexivity | exfalso; nra].
  - destruct (Rlt_dec (k ^ 2 * (b ^ 2 - 4 * a * c)) 0) as [L' | _];
      [exfalso; nra |].
    rewrite sqrt_scaled by lra.
    set (S := sqrt (b ^ 2 - 4 * a * c)).
    destruct (Req_dec_T a 0) as [Z | N].
    + subst a. rewrite !fdiv_zero by lra. reflexivity.
    + assert (Hka : 2 * (k ^ 2 * a) <> 0) by nra.
      rewrite !fdiv_nonzero by lra. cbn [bind].
      replace ((- (k * b) + k * S) / (2 * (k ^ 2 * a)))
        with ((- b + S) / (2 * a) / k) by (field; lra).
      replace ((- (k * b) - k * S) / (2 * (k ^ 2 * a)))
        with ((- b - S) / (2 * a) / k) by (field; lra).
      pose proof (div_pos_neg_iff ((- b + S) / (2 * a)) k Hk) as E1.
      pose proof (div_pos_neg_iff ((- b - S) / (2 * a)) k Hk) as E2.
      destruct (Rlt_dec ((- b + S) / (2 * a) / k) 0) as [L1 | G1];
        destruct (Rlt_dec ((- b + S) / (2 * a)) 0) as [L1' | G1'];
        try tauto; cbn [bind rescale]; try reflexivity.
      destruct (Rlt_dec ((- b - S) / (2 * a) / k) 0) as [L2 | G2];
        destruct (Rlt_dec ((- b - S) / (2 * a)) 0) as [L2' | G2'];
        try tauto; reflexivity.
Qed.

Lemma general_root_scaled (k a b c : R) :
  0 < k -> general_root (k ^ 2 * a) (k * b) c = rescale k (general_root a b c).
Proof.
  intros Hk. unfold general_root.
  assert (Hd : (k * b) ^ 2 - 4 * (k ^ 2 * a) * c = k ^ 2 * (b ^ 2 - 4 * a * c))
    by ring.
  rewrite Hd. assert (Hk2 : 0 < k ^ 2) by nra.
  destruct (Rlt_dec (b ^ 2 - 4 * a * c) 0) as [L | G].
  - destruct (Rlt_dec (k ^ 2 * (b ^ 2 - 4 * a * c)) 0) as [_ | G'];
      [reflexivity | exfalso; nra].
  - destruct (Rlt_dec (k ^ 2 * (b ^ 2 - 4 * a * c)) 0) as [L' | _];
      [exfalso; nra |].
    rewrite sqrt_scaled by lra.
    set (S := sqrt (b ^ 2 - 4 * a * c)).
    destruct (Req_dec_T a 0) as [Z | N].
    + subst a. rewrite !fdiv_zero by lra. reflexivity.
    + assert (Hka : 2 * (k ^ 2 * a) <> 0) by nra.
      rewrite !fdiv_nonzero by lra. cbn [bind].
      replace ((- (k * b) - k * S) / (2 * (k ^ 2 * a)))
        with ((- b - S) / (2 * a) / k) by (field; lra).
      pose proof (div_pos_neg_iff ((- b - S) / (2 * a)) k Hk) as E.
      destruct (Rlt_dec ((- b - S) / (2 * a) / k) 0) as [L2 | G2];
        destruct (Rlt_dec ((- b - S) / (2 * a)) 0) as [L2' | G2'];
        try tauto; reflexivity.
Qed.

Lemma vertical_root_scaled (k y_parabola y0 dy : R) :
  0 < k ->
  vertical_root y_parabola y0 (k * dy) = rescale k (vertical_root y_parabola y0 dy).
Proof.
  intros Hk. unfold vertical_root.
  destruct (Req_dec_T dy 0) as [Z | N].
  - destruct (Req_dec_T (k * dy) 0) as [_ | N']; [reflexivity | exfalso; nra].
  - destruct (Req_dec_T (k * dy) 0) as [Z' | _]; [exfalso; nra |].
    assert (k * dy <> 0) by nra.
    rewrite !fdiv_nonzero by assumption. cbn [bind].
    replace ((y_parabola - y0) / (k * dy)) with ((y_parabola - y0) / dy / k)
      by (field; lra).
    pose proof (div_pos_le_iff ((y_parabola - y0) / dy) k Hk) as E.
    destruct (Rle_dec ((y_parabola - y0) / dy / k) 0) as [L | G];
      destruct (Rle_dec ((y_parabola - y0) / dy) 0) as [L' | G'];
      try tauto; reflexivity.
Qed.

Lemma intersect_scaled (self : ParabolaOptics) (o d : point) (k : R)
  (h : option (point * R)) :
  0 < k ->
  intersect self o d = Fin h ->
  intersect self o (k * fst d, k * snd d) =
  Fin (match h with Some (p, t) => Some (p, t / k) | None => None end).
Proof.
  intros Hk. destruct (allclose o (0, focus self)) eqn:C.
  - rewrite !intersect_focus_branch by assumption. cbn [fst snd]. intros H.
    apply bind_Fin_inv in H as (a & Ha & H).
    apply fdiv_Fin_inv in Ha as [Hf ->].
    rewrite fdiv_nonzero by assumption. cbn [bind].
    replace ((k * fst d) ^ 2 / (4 * focus self))
      with (k ^ 2 * (fst d ^ 2 / (4 * focus self))) by (field; lra).
    replace (- (k * snd d)) with (k * - snd d) by ring.
    rewrite focus_root_scaled by assumption.
    apply bind_Fin_inv in H as (r & -> & H).
    destruct r as [s |]; injection H as <-; cbn [rescale bind]; [| reflexivity].
    do 2 apply f_equal. apply f_equal2; [| reflexivity].
    apply f_equal2; field; lra.
  - destruct (Req_dec_T (fst d) 0) as [Z | N].
    + rewrite (intersect_vertical_branch self o d) by assumption.
      rewrite intersect_vertical_branch by (assumption || (cbn [fst]; rewrite Z; ring)).
      cbn [fst snd]. intros H.
      apply bind_Fin_inv in H as (y & -> & H). cbn [bind].
      rewrite vertical_root_scaled by assumption.
      apply bind_Fin_inv in H as (r & -> & H).
      destruct r as [s |]; injection H as <-; reflexivity.
    + rewrite (intersect_general_branch self o d) by assumption.
      rewrite intersect_general_branch by (assumption || (cbn [fst]; nra)).
      cbn [fst snd]. intros H.
      replace ((k * fst d) ^ 2) with (k ^ 2 * fst d ^ 2) by ring.
      replace (2 * fst o * (k * fst d) - 4 * focus self * (k * snd d))
        with (k * (2 * fst o * fst d - 4 * focus self * snd d)) by ring.
      rewrite general_root_scaled by assumption.
      apply bind_Fin_inv in H as (r & -> & H).
      destruct r as [s |]; injection H as <-; cbn [rescale bind]; [| reflexivity].
      do 2 apply f_equal. apply f_equal2; [| reflexivity].
      apply f_equal2; field; lra.
Qed.

Lemma reflect_at_scaled (self : ParabolaOptics) (p d r : point) (k : R) :
  0 < k ->
  reflect_at self p d = Fin r ->
  reflect_at self p (k * fst d, k * snd d) = Fin r.
Proof.
  intros Hk H. destruct (reflect_at_Fin_inv _ _ _ _ H) as [Hf Hd].
  rewrite reflect_at_closed in H by assumption.
  assert (Hn : norm (k * fst d, k * snd d) = k * norm d)
    by (apply norm_scaled; assumption).
  rewrite reflect_at_closed by (assumption || (rewrite Hn; nra)).
  rewrite Hn. cbn [fst snd].
  replace (k * fst d / (k * norm d)) with (fst d / norm d) by (field; lra).
  replace (k * snd d / (k * norm d)) with (snd d / norm d) by (field; lra).
  exact H.
Qed.

(** X8.  Only the direction of [ray_dir] matters, not its length: for
    [k > 0], scaling the direction by [k] gives the same hit point and the
    same reflected direction, with the parameter [t] divided by [k]; and a
    ray that gets [None] still gets [None]. *)
Theorem direction_length_is_irrelevant
  (self : ParabolaOptics) (o d : point) (k : R) :
  0 < k ->
  (forall p r t,
     reflect_ray self o d = Fin (Some (p, r, t)) ->
     reflect_ray self o (k * fst d, k * snd d) = Fin (Some (p, r, t / k))) /\
  (reflect_ray self o d = Fin None ->
   reflect_ray self o (k * fst d, k * snd d) = Fin None).
Proof.
  intros Hk. split.
  - intros p r t H. apply reflect_ray_Some_inv in H as [Hi Hr].
    unfold reflect_ray.
    rewrite (intersect_scaled self o d k _ Hk Hi). cbn [bind].
    rewrite (reflect_at_scaled self p d r k Hk Hr). reflexivity.
  - intros H. unfold reflect_ray in H.
    apply bind_Fin_inv in H as (h & Hi & H).
    destruct h as [[p t] |].
    + apply bind_Fin_inv in H as (r & _ & H). discriminate.
    + apply reflect_ray_of_miss.
      apply (intersect_scaled self o d k None Hk Hi).
Qed.

Lemma direction_length_is_irrelevant_witness :
  reflect_ray (init 1) (0, 1) (3 * fst (2, 0), 3 * snd (2, 0)) =
  Fin (Some ((2, 1), (0, 1), 1 / 3)).
Proof.
  assert (Hk : 0 < 3) by lra.
  destruct (direction_length_is_irrelevant (init 1) (0, 1) (2, 0) 3 Hk) as [H _].
  apply H. apply focus_ray_example.
Defined.

(** ** The tangent slope *)

Lemma parabola_derivative (f x : R) :
  f <> 0 -> derivable_pt_lim (fun u => u ^ 2 / (4 * f)) x (x / (2 * f)).
Proof.
  intros Hf.
  assert (Hp : derivable_pt_lim (fun u => u ^ 2) x (2 * x)).
  { pose proof (derivable_pt_lim_pow x 2) as P. simpl in P.
    replace (2 * x) with ((1 + 1) * (x * 1)) by ring. exact P. }
  pose proof (derivable_pt_lim_scal (fun u => u ^ 2) (/ (4 * f)) x (2 * x) Hp) as H.
  unfold mult_real_fct in H.
  replace (x / (2 * f)) with (/ (4 * f) * (2 * x)) by (field; assumption).
  intros eps Heps. destruct (H eps Heps) as [delta Hd]. exists delta.
  intros h Hh Hlt. specialize (Hd h Hh Hlt).
  replace (((x + h) ^ 2 / (4 * f) - x ^ 2 / (4 * f)) / h)
    with ((/ (4 * f) * (x + h) ^ 2 - / (4 * f) * x ^ 2) / h)
    by (field; split; assumption).
  exact Hd.
Qed.

(** X9.  For [f <> 0], [get_tangent_slope] at [x] is the derivative at [x]
    of the curve [parabola_y] computes. *)
Theorem tangent_slope_is_derivative (self : ParabolaOptics) (x : R) :
  focus self <> 0 ->
  exists g m,
    (forall u, parabola_y self u = Fin (g u)) /\
    get_tangent_slope self x = Fin m /\
    derivable_pt_lim g x m.
Proof.
  intros Hf.
  exists (fun u => u ^ 2 / (4 * focus self)), (x / (2 * focus self)).
  split; [| split].
  - intros u. unfold parabola_y. apply fdiv_nonzero. lra.
  - unfold get_tangent_slope. apply fdiv_nonzero. lra.
  - apply parabola_derivative. assumption.
Qed.

Lemma tangent_slope_is_derivative_witness :
  exists g m,
    (forall u, parabola_y (init 2) u = Fin (g u)) /\
    get_tangent_slope (init 2) 3 = Fin m /\
    derivable_pt_lim g 3 m.
Proof.
  apply (tangent_slope_is_derivative (init 2) 3). simpl. lra.
Defined.

(** ** More on the ray bundles *)

Lemma linspace_In (start stop x : R) (num : nat) :
  In x (linspace start stop num) ->
  exists i, (i < num)%nat /\
    x = match num with
        | 1%nat => start
        | _ => start + INR i * ((stop - start) / INR (num - 1))
        end.
Proof.
  intros H. apply In_nth_error in H as [i Hi]. exists i.
  assert (Hlt : (i < num)%nat).
  { rewrite <- (linspace_length start stop num).
    apply nth_error_Some. rewrite Hi. discriminate. }
  split; [exact Hlt |].
  rewrite linspace_nth in Hi by assumption. injection Hi as <-. reflexivity.
Qed.

Lemma linspace_bounds (start stop x : R) (num : nat) :
  start <= stop -> In x (linspace start stop num) -> start <= x <= stop.
Proof.
  intros Hle H. apply linspace_In in H as (i & Hi & ->).
  destruct num as [| [| n]]; [lia | lra |].
  assert (Hn : 0 < INR (S (S n) - 1)).
  { apply lt_0_INR. lia. }
  assert (Hi' : INR i <= INR (S (S n) - 1)) by (apply le_INR; lia).
  pose proof (pos_INR i) as H0.
  set (N := INR (S (S n) - 1)) in *.
  assert (Hstep : 0 <= (stop - start) / N).
  { apply Rmult_le_pos; [lra |]. left. apply Rinv_0_lt_compat. assumption. }
  assert (Hfull : N * ((stop - start) / N) = stop - start) by (field; lra).
  split; nra.
Qed.

Lemma linspace_first (start stop : R) (num : nat) :
  (0 < num)%nat -> nth_error (linspace start stop num) 0 = Some start.
Proof.
  intros Hn. rewrite linspace_nth by assumption.
  destruct num as [| [| n]]; [lia | reflexivity |].
  f_equal. simpl INR at 1. ring.
Qed.

Lemma linspace_last (start stop : R) (num : nat) :
  (2 <= num)%nat -> nth_error (linspace start stop num) (num - 1) = Some stop.
Proof.
  intros Hn. rewrite linspace_nth by lia.
  destruct num as [| [| n]]; [lia | lia |].
  f_equal. field. apply not_0_INR. lia.
Qed.

(** X10.  The parallel bundle spans [x_range]: for [lo <= hi] every ray
    starts at height 10 at an abscissa within [lo, hi] and points straight
    down; a nonempty bundle starts at [lo], and one of two or more rays
    ends at [hi]. *)
Theorem parallel_rays_span_range
  (self : ParabolaOptics) (num_rays : nat) (lo hi : R) :
  lo <= hi ->
  (forall ray, In ray (generate_parallel_rays self num_rays (lo, hi)) ->
     lo <= fst (fst ray) <= hi /\ snd (fst ray) = 10 /\ snd ray = (0, -1)) /\
  ((0 < num_rays)%nat ->
   nth_error (generate_parallel_rays self num_rays (lo, hi)) 0 =
   Some ((lo, 10), (0, -1))) /\
  ((2 <= num_rays)%nat ->
   nth_error (generate_parallel_rays self num_rays (lo, hi)) (num_rays - 1) =
   Some ((hi, 10), (0, -1))).
Proof.
  intros Hle. unfold generate_parallel_rays. cbn [fst snd].
  split; [| split].
  - intros ray H. apply in_map_iff in H as (x & <- & Hx).
    cbn [fst snd]. split; [| split; reflexivity].
    apply (linspace_bounds lo hi x num_rays); assumption.
  - intros Hn. rewrite nth_error_map, linspace_first by assumption. reflexivity.
  - intros Hn. rewrite nth_error_map, linspace_last by assumption. reflexivity.
Qed.

Lemma parallel_rays_span_range_witness :
  nth_error (generate_parallel_rays (init 1) 5 (-3, 3)) (5 - 1) =
  Some ((3, 10), (0, -1)).
Proof.
  assert (Hle : -3 <= 3) by lra.
  destruct (parallel_rays_span_range (init 1) 5 (-3) 3 Hle) as (_ & _ & H).
  apply H. lia.
Defined.

Lemma collect_map_Fin {A B : Type} (g : A -> np B) (h : A -> B) (xs : list A) :
  (forall x, In x xs -> g x = Fin (h x)) ->
  collect (map g xs) = Fin (map h xs).
Proof.
  induction xs as [| x xs IH]; intros H; simpl; [reflexivity |].
  rewrite (H x) by (left; reflexivity). cbn [bind].
  rewrite IH by (intros y Hy; apply H; right; exact Hy). reflexivity.
Qed.

Lemma focal_target_norm_nonzero (self : ParabolaOptics) (x : R) :
  focus self <> 0 ->
  norm (x - 0, x ^ 2 / (4 * focus self) - focus self) <> 0.
Proof.
  intros Hf Hn. apply norm_zero_inv in Hn as [Hx Hy]. cbn [fst snd] in Hx, Hy.
  assert (x = 0) as -> by lra.
  replace (0 ^ 2 / (4 * focus self)) with 0 in Hy by (field; assumption).
  lra.
Qed.

Lemma focal_ray_value (self : ParabolaOptics) (x : R) :
  focus self <> 0 -> focal_ray self x = Fin (focal_ray_of self x).
Proof.
  intros Hf. unfold focal_ray, focal_ray_of, parabola_y.
  rewrite fdiv_nonzero by lra. cbn [bind].
  rewrite vdiv_nonzero by (apply focal_target_norm_nonzero; assumption).
  reflexivity.
Qed.

Lemma generate_focal_rays_value (self : ParabolaOptics) (num_rays : nat) :
  focus self <> 0 ->
  generate_focal_rays self num_rays =
  Fin (map (focal_ray_of self) (linspace (-3) 3 num_rays)).
Proof.
  intros Hf. unfold generate_focal_rays. apply collect_map_Fin.
  intros x _. apply focal_ray_value. assumption.
Qed.

Lemma focal_ray_of_unit (self : ParabolaOptics) (x : R) :
  focus self <> 0 -> norm (snd (focal_ray_of self x)) = 1.
Proof.
  intros Hf. unfold focal_ray_of. cbn [snd].
  apply norm_of_unit. apply unit_incident.
  apply focal_target_norm_nonzero. assumption.
Qed.

(** X11.  For [f <> 0], [generate_focal_rays] divides by no zero and gives
    [num_rays] rays; the [i]-th starts at the focus and its direction is
    the unit vector towards the curve point above the [i]-th sample of
    [linspace(-3, 3, num_rays)].  For [f = 0] a nonempty bundle divides by
    zero. *)
Theorem focal_rays_well_formed (self : ParabolaOptics) (num_rays : nat) :
  (focus self <> 0 ->
   exists rays,
     generate_focal_rays self num_rays = Fin rays /\
     length rays = num_rays /\
     forall i ray, nth_error rays i = Some ray ->
       fst ray = (0, focus self) /\ norm (snd ray) = 1 /\
       exists x k,
         nth_error (linspace (-3) 3 num_rays) i = Some x /\ 0 < k /\
         snd ray = (k * x, k * (x ^ 2 / (4 * focus self) - focus self))) /\
  (focus self = 0 -> (0 < num_rays)%nat ->
   generate_focal_rays self num_rays = DivZero).
Proof.
  split.
  - intros Hf. eexists. split; [apply generate_focal_rays_value; assumption |].
    split; [now rewrite length_map, linspace_length |].
    intros i ray Hi. rewrite nth_error_map in Hi.
    destruct (nth_error (linspace (-3) 3 num_rays) i) as [x |] eqn:Hx;
      [| discriminate].
    injection Hi as <-. split; [reflexivity |].
    split; [apply focal_ray_of_unit; assumption |].
    pose proof (focal_target_norm_nonzero self x Hf) as Hn.
    pose proof (norm_nonneg (x - 0, x ^ 2 / (4 * focus self) - focus self)) as Hp.
    exists x, (/ norm (x - 0, x ^ 2 / (4 * focus self) - focus self)).
    split; [reflexivity |]. split.
    + apply Rinv_0_lt_compat. lra.
    + unfold focal_ray_of. cbn [fst snd]. apply f_equal2; field; auto.
  - intros Hf Hn. unfold generate_focal_rays.
    destruct (linspace_nonempty (-3) 3 num_rays Hn) as (x & xs & ->).
    simpl. rewrite focal_ray_degenerate by assumption. reflexivity.
Qed.

Lemma focal_rays_well_formed_witness :
  (exists rays,
     generate_focal_rays (init 1) 5 = Fin rays /\ length rays = 5%nat /\
     forall i ray, nth_error rays i = Some ray ->
       fst ray = (0, focus (init 1)) /\ norm (snd ray) = 1 /\
       exists x k,
         nth_error (linspace (-3) 3 5) i = Some x /\ 0 < k /\
         snd ray = (k * x, k * (x ^ 2 / (4 * focus (init 1)) - focus (init 1)))) /\
  generate_focal_rays (init 0) 5 = DivZero.
Proof.
  split.
  - apply (proj1 (focal_rays_well_formed (init 1) 5)). simpl. lra.
  - apply (proj2 (focal_rays_well_formed (init 0) 5)); [reflexivity | lia].
Defined.

Lemma reflect_ray_focus_only (self : ParabolaOptics) (o d : point) :
  reflect_ray self o d = reflect_ray (init (focus self)) o d.
Proof. destruct self as [f dx]. reflexivity. Qed.

Lemma focal_ray_of_reflects_up (self : ParabolaOptics) (x : R) :
  0 < focus self -> x <> 0 ->
  reflect_ray self (fst (focal_ray_of self x)) (snd (focal_ray_of self x)) =
  Fin (Some ((x, x ^ 2 / (4 * focus self)), (0, 1),
             x ^ 2 / (4 * focus self) + focus self)).
Proof.
  intros Hf Hx. rewrite reflect_ray_focus_only. unfold focal_ray_of.
  cbn [fst snd focus init]. set (f := focus self) in *.
  assert (Hsq : 0 < x ^ 2) by (apply sqr_pos_nz; assumption).
  assert (Hy : 0 < x ^ 2 / (4 * f)) by (apply Rdiv_lt_0_compat; lra).
  assert (Hn : norm (x - 0, x ^ 2 / (4 * f) - f) = x ^ 2 / (4 * f) + f).
  { apply norm_eq; [lra |]. cbn [fst snd]. field. lra. }
  rewrite Hn. set (n := x ^ 2 / (4 * f) + f) in *.
  assert (Hnpos : 0 < n) by (unfold n; lra).
  replace ((x - 0) / n) with (/ n * x) by (field; lra).
  replace ((x ^ 2 / (4 * f) - f) / n) with (/ n * (x ^ 2 / (4 * f) - f))
    by (field; lra).
  rewrite focus_ray_reflection; [| lra | assumption | apply Rinv_0_lt_compat; lra].
  rewrite Rinv_inv. reflexivity.
Qed.

Lemma focal_ray_of_centre (self : ParabolaOptics) (x : R) :
  x = 0 ->
  reflect_ray self (fst (focal_ray_of self x)) (snd (focal_ray_of self x)) =
  DivZero.
Proof.
  intros ->. apply focus_branch_vertical_ray.
  - apply allclose_refl.
  - unfold focal_ray_of. cbn [fst snd]. unfold Rdiv. ring.
Qed.

(** X12.  For [f > 0], every ray of the focal bundle aimed at an abscissa
    [x <> 0] hits the curve point [(x, x^2/(4f))] it was aimed at, after
    travelling [t = x^2/(4f) + f], and is reflected straight up, direction
    [(0, 1)]; the ray aimed at [x = 0] divides by zero. *)
Theorem focal_rays_reflect_along_axis (self : ParabolaOptics) (num_rays : nat) :
  0 < focus self ->
  exists rays,
    generate_focal_rays self num_rays = Fin rays /\
    forall i ray x,
      nth_error rays i = Some ray ->
      nth_error (linspace (-3) 3 num_rays) i = Some x ->
      (x <> 0 ->
       reflect_ray self (fst ray) (snd ray) =
       Fin (Some ((x, x ^ 2 / (4 * focus self)), (0, 1),
                  x ^ 2 / (4 * focus self) + focus self))) /\
      (x = 0 -> reflect_ray self (fst ray) (snd ray) = DivZero).
Proof.
  intros Hf. eexists. split; [apply generate_focal_rays_value; lra |].
  intros i ray x Hi Hx. rewrite nth_error_map, Hx in Hi. injection Hi as <-.
  split.
  - apply focal_ray_of_reflects_up. assumption.
  - apply focal_ray_of_centre.
Qed.

Lemma focal_rays_reflect_along_axis_witness :
  exists rays,
    generate_focal_rays (init 1) 2 = Fin rays /\
    forall i ray x,
      nth_error rays i = Some ray ->
      nth_error (linspace (-3) 3 2) i = Some x ->
      (x <> 0 ->
       reflect_ray (init 1) (fst ray) (snd ray) =
       Fin (Some ((x, x ^ 2 / (4 * focus (init 1))), (0, 1),
                  x ^ 2 / (4 * focus (init 1)) + focus (init 1)))) /\
      (x = 0 -> reflect_ray (init 1) (fst ray) (snd ray) = DivZero).
Proof.
  apply (focal_rays_reflect_along_axis (init 1) 2). simpl. lra.
Defined.

Lemma linspace_centre (m : nat) :
  exists x, nth_error (linspace (-3) 3 (2 * m + 3)) (m + 1) = Some x /\ x = 0.
Proof.
  eexists. split; [apply linspace_nth; lia |].
  destruct (2 * m + 3)%nat as [| [| n]] eqn:E; [lia | lia |].
  replace (S (S n) - 1)%nat with (2 * (m + 1))%nat by lia.
  rewrite mult_INR. simpl (INR 2).
  assert (INR (m + 1) <> 0) by (apply not_0_INR; lia).
  field. assumption.
Qed.

(** X13.  For [f <> 0], a focal bundle with an odd number of rays, three
    or more, has its middle ray aimed at [x = 0], straight along the axis,
    and [reflect_ray] on that ray divides by zero. *)
Theorem odd_focal_bundle_has_degenerate_ray (self : ParabolaOptics) (m : nat) :
  focus self <> 0 ->
  exists rays ray,
    generate_focal_rays self (2 * m + 3) = Fin rays /\
    nth_error rays (m + 1) = Some ray /\
    fst (snd ray) = 0 /\
    reflect_ray self (fst ray) (snd ray) = DivZero.
Proof.
  intros Hf. destruct (linspace_centre m) as (x & Hx & Hx0).
  exists (map (focal_ray_of self) (linspace (-3) 3 (2 * m + 3))),
         (focal_ray_of self x).
  split; [apply generate_focal_rays_value; assumption |].
  split; [rewrite nth_error_map, Hx; reflexivity |].
  split.
  - rewrite Hx0. unfold focal_ray_of. cbn [fst snd]. unfold Rdiv. ring.
  - apply focal_ray_of_centre. assumption.
Qed.

Lemma odd_focal_bundle_has_degenerate_ray_witness :
  exists rays ray,
    generate_focal_rays (init 1) (2 * 1 + 3) = Fin rays /\
    nth_error rays (1 + 1) = Some ray /\
    fst (snd ray) = 0 /\
    reflect_ray (init 1) (fst ray) (snd ray) = DivZero.
Proof.
  apply (odd_focal_bundle_has_degenerate_ray (init 1) 1). simpl. lra.
Defined.

(** * The presenter's [update] *)

Lemma collect_DivZero {A B : Type} (g : A -> np B) (xs : list A) (x : A) :
  In x xs -> g x = DivZero -> collect (map g xs) = DivZero.
Proof.
  induction xs as [| y xs IH]; intros Hin Hx; [contradiction |].
  simpl. destruct Hin as [-> | Hin].
  - rewrite Hx. reflexivity.
  - destruct (g y) as [b |]; [| reflexivity]. cbn [bind].
    rewrite (IH Hin Hx). reflexivity.
Qed.

Lemma collect_Fin_inv {A B : Type} (g : A -> np B) (xs : list A) (l : list B) :
  collect (map g xs) = Fin l -> Forall2 (fun x b => g x = Fin b) xs l.
Proof.
  revert l. induction xs as [| x xs IH]; intros l H; simpl in H.
  - injection H as <-. constructor.
  - apply bind_Fin_inv in H as (b & Hb & H).
    apply bind_Fin_inv in H as (r & Hr & H). injection H as <-.
    constructor; [assumption | apply IH; assumption].
Qed.

Lemma nth_error_concat_pairs {A B : Type} (g h : A -> B) (xs : list A) (i : nat) :
  nth_error (concat (map (fun x => [g x; h x]) xs)) (2 * i) =
  option_map g (nth_error xs i) /\
  nth_error (concat (map (fun x => [g x; h x]) xs)) (2 * i + 1) =
  option_map h (nth_error xs i).
Proof.
  revert i. induction xs as [| x xs IH]; intros i.
  - simpl. rewrite !nth_error_nil. destruct i; split; reflexivity.
  - destruct i as [| i].
    + split; reflexivity.
    + replace (2 * S i)%nat with (S (S (2 * i))) by lia.
      replace (S (S (2 * i)) + 1)%nat with (S (S (2 * i + 1))) by lia.
      simpl. apply IH.
Qed.

Lemma length_concat_pairs {A B : Type} (g h : A -> B) (xs : list A) :
  length (concat (map (fun x => [g x; h x]) xs)) = (2 * length xs)%nat.
Proof. induction xs as [| x xs IH]; simpl; [reflexivity | rewrite IH; lia]. Qed.

Lemma parabola_plot_defined (self : ParabolaOptics) (xs : list R) :
  focus self <> 0 ->
  collect (map (parabola_y self) xs) =
  Fin (map (fun x => x ^ 2 / (4 * focus self)) xs).
Proof.
  intros Hf. apply collect_map_Fin. intros x _.
  unfold parabola_y. apply fdiv_nonzero. lra.
Qed.

(** A ray straight down from height 10 onto a parabola with [f > 0]. *)
Lemma parallel_ray_reflection (self : ParabolaOptics) (x : R) :
  0 < focus self -> x ^ 2 / (4 * focus self) < 10 ->
  allclose (x, 10) (0, focus self) = false ->
  reflect_ray self (x, 10) (0, -1) =
  Fin (Some ((x, x ^ 2 / (4 * focus self)),
             (4 * focus self / (x ^ 2 + 4 * focus self ^ 2) * (0 - x),
              4 * focus self / (x ^ 2 + 4 * focus self ^ 2) *
              (focus self - x ^ 2 / (4 * focus self))),
             10 - x ^ 2 / (4 * focus self))).
Proof.
  intros Hf Hy C. set (f := focus self) in *.
  assert (Hden : 0 < x ^ 2 + 4 * f ^ 2) by nra.
  assert (Ht : (x ^ 2 / (4 * f) - 10) / -1 = 10 - x ^ 2 / (4 * f))
    by (field; lra).
  assert (Hi : intersect self (x, 10) (0, -1) =
               Fin (Some ((x, x ^ 2 / (4 * f)), 10 - x ^ 2 / (4 * f)))).
  { rewrite intersect_vertical_branch; [| exact C | reflexivity].
    unfold parabola_y. cbn [fst snd]. fold f.
    rewrite fdiv_nonzero by lra. cbn [bind].
    rewrite vertical_root_forward; [| lra | rewrite Ht; lra].
    cbn [bind]. rewrite Ht. reflexivity. }
  rewrite (reflect_ray_of_hit self _ _ _ _) with (3 := Hi).
  - rewrite norm_down. unfold mirror, dot. cbn [fst snd]. fold f.
    apply f_equal. apply f_equal.
    apply f_equal2; [apply f_equal2 | reflexivity]; [reflexivity |].
    apply f_equal2; field; lra.
  - fold f. lra.
  - rewrite norm_down. lra.
Qed.

(** The two lines [update] draws for the parallel ray at abscissa [x]. *)
Lemma draw_parallel_ray (self : ParabolaOptics) (x : R) :
  1 / 2 <= focus self <= 5 -> -3 <= x <= 3 ->
  draw_ray self ((x, 10), (0, -1)) =
  Fin [sample_line (x, 10) (0, -1) (10 - x ^ 2 / (4 * focus self));
       sample_line (x, x ^ 2 / (4 * focus self))
         (4 * focus self / (x ^ 2 + 4 * focus self ^ 2) * (0 - x),
          4 * focus self / (x ^ 2 + 4 * focus self ^ 2) *
          (focus self - x ^ 2 / (4 * focus self))) 12].
Proof.
  intros Hf Hx. unfold draw_ray.
  rewrite parallel_ray_reflection; [reflexivity | lra | |].
  - apply (Rmult_lt_reg_r (4 * focus self)); [lra |].
    replace (x ^ 2 / (4 * focus self) * (4 * focus self)) with (x ^ 2)
      by (field; lra).
    nra.
  - apply far_in_y. cbn [fst snd]. solve_abs.
Qed.

Lemma sample_line_length (start dir : point) (t_end : R) :
  length (sample_line start dir t_end) = 50%nat.
Proof. unfold sample_line. now rewrite length_map, linspace_length. Qed.

Lemma Forall2_combine {A B : Type} (R : A -> B -> Prop) (xs : list A) (ys : list B) :
  Forall2 R xs ys ->
  length (combine xs ys) = length xs /\
  forall x y, In (x, y) (combine xs ys) -> In x xs /\ R x y.
Proof.
  induction 1 as [| x y xs ys Hxy _ [IHl IH]]; simpl.
  - split; [reflexivity | contradiction].
  - split; [now rewrite IHl |].
    intros a b [E | Hin].
    + injection E as <- <-. split; [left; reflexivity | assumption].
    + destruct (IH a b Hin) as [Ha Hab]. split; [right; assumption | assumption].
Qed.

Lemma draw_ray_lines (optics : ParabolaOptics) (ray : point * point)
  (ls : list (list point)) :
  draw_ray optics ray = Fin ls ->
  (length ls = 0%nat \/ length ls = 2%nat) /\
  forall line, In line ls -> length line = 50%nat.
Proof.
  unfold draw_ray. destruct ray as [ray_start ray_dir]. intros H.
  apply bind_Fin_inv in H as (res & _ & H).
  destruct res as [[[p r] t] |]; injection H as <-.
  - split; [right; reflexivity |].
    intros line [<- | [<- | []]]; apply sample_line_length.
  - split; [left; reflexivity | intros line []].
Qed.

Lemma drawn_lines_shape (optics : ParabolaOptics) (rays : list (point * point))
  (lines : list (list (list point))) :
  Forall2 (fun ray ls => draw_ray optics ray = Fin ls) rays lines ->
  (length (concat lines) <= 2 * length rays)%nat /\
  Nat.Even (length (concat lines)) /\
  forall line, In line (concat lines) -> length line = 50%nat.
Proof.
  induction 1 as [| ray ls rays lines Hd _ (IHl & IHe & IH)]; simpl.
  - split; [lia |]. split; [exists 0%nat; reflexivity | contradiction].
  - apply draw_ray_lines in Hd as [Hlen Hls].
    rewrite length_app. split; [lia |]. split.
    + destruct IHe as [k Hk]. destruct Hlen as [-> | ->].
      * exists k. lia.
      * exists (S k). lia.
    + intros line Hin. apply in_app_or in Hin as [Hin | Hin]; auto.
Qed.

(** X14.  Whenever [update] divides by no zero: the instance has the
    slider's focus and its old directrix attribute; the focus marker is at
    [(0, f)] and the directrix line at height [-f]; the parabola plot has
    400 points, each on the curve with abscissa in [-8, 8]; and the ray
    lines come in pairs, at most two per ray, 50 points each. *)
Theorem update_scene_shape
  (optics optics' : ParabolaOptics) (s_focus_val : R) (s_num_rays_val : nat)
  (current_ray_type : ray_type) (sc : scene) :
  update optics s_focus_val s_num_rays_val current_ray_type = Fin (optics', sc) ->
  focus optics' = s_focus_val /\
  directrix optics' = directrix optics /\
  focus_plot sc = [(0, s_focus_val)] /\
  directrix_plot sc = [(-8, - s_focus_val); (8, - s_focus_val)] /\
  length (parabola_plot sc) = 400%nat /\
  (forall q, In q (parabola_plot sc) ->
     -8 <= fst q <= 8 /\ parabola_y optics' (fst q) = Fin (snd q)) /\
  (length (ray_lines sc) <= 2 * s_num_rays_val)%nat /\
  Nat.Even (length (ray_lines sc)) /\
  (forall line, In line (ray_lines sc) -> length line = 50%nat).
Proof.
  unfold update. remember (linspace (-8) 8 400) as xs eqn:Exs. intros H.
  apply bind_Fin_inv in H as (y & Hy & H).
  apply bind_Fin_inv in H as (rays & Hrays & H).
  apply bind_Fin_inv in H as (lines & Hlines & H).
  injection H as <- <-. cbn [focus directrix set_focus focus_plot
    directrix_plot parabola_plot ray_lines].
  apply collect_Fin_inv in Hy. apply Forall2_combine in Hy as [Hlen Hpts].
  apply collect_Fin_inv in Hlines.
  assert (Hn : length rays = s_num_rays_val).
  { destruct current_ray_type.
    - injection Hrays as <-. unfold generate_parallel_rays.
      now rewrite length_map, linspace_length.
    - unfold generate_focal_rays in Hrays. apply collect_Fin_inv in Hrays.
      apply Forall2_length in Hrays.
      now rewrite <- Hrays, linspace_length. }
  apply drawn_lines_shape in Hlines as (Hle & Hev & H50). rewrite Hn in Hle.
  do 4 (split; [reflexivity |]).
  split.
  { transitivity (length xs); [exact Hlen |]. rewrite Exs. apply linspace_length. }
  split; [| split; [exact Hle | split; [exact Hev | exact H50]]].
  intros [qx qy] Hq. apply Hpts in Hq as [Hin Hq]. cbn [fst snd].
  split; [| exact Hq].
  rewrite Exs in Hin.
  apply (linspace_bounds (-8) 8 qx 400); [lra | exact Hin].
Qed.

Lemma update_parallel_value (optics : ParabolaOptics) (f : R) (n : nat) :
  1 / 2 <= f <= 5 ->
  update optics f n parallel =
  Fin (set_focus optics f,
       {| parabola_plot :=
            combine (linspace (-8) 8 400)
                    (map (fun x => x ^ 2 / (4 * f)) (linspace (-8) 8 400));
          focus_plot := [(0, f)];
          directrix_plot := [(-8, - f); (8, - f)];
          ray_lines :=
            concat (map (fun x =>
                           [sample_line (x, 10) (0, -1) (10 - x ^ 2 / (4 * f));
                            sample_line (x, x ^ 2 / (4 * f))
                              (4 * f / (x ^ 2 + 4 * f ^ 2) * (0 - x),
                               4 * f / (x ^ 2 + 4 * f ^ 2) * (f - x ^ 2 / (4 * f)))
                              12])
                        (linspace (-3) 3 n)) |}).
Proof.
  intros Hf. unfold update.
  remember (linspace (-8) 8 400) as xs eqn:Exs. cbv zeta.
  rewrite parabola_plot_defined by (cbn [focus set_focus]; lra).
  cbn [bind focus set_focus].
  unfold generate_parallel_rays. cbn [fst snd]. rewrite map_map.
  rewrite (collect_map_Fin _
             (fun x =>
                [sample_line (x, 10) (0, -1) (10 - x ^ 2 / (4 * f));
                 sample_line (x, x ^ 2 / (4 * f))
                   (4 * f / (x ^ 2 + 4 * f ^ 2) * (0 - x),
                    4 * f / (x ^ 2 + 4 * f ^ 2) * (f - x ^ 2 / (4 * f))) 12])).
  - reflexivity.
  - intros x Hx. apply (linspace_bounds (-3) 3 x n) in Hx; [| lra].
    apply (draw_parallel_ray (set_focus optics f) x); [exact Hf | exact Hx].
Qed.

Lemma focus_on_reflected_segment (f x : R) :
  1 / 2 <= f <= 5 -> -3 <= x <= 3 ->
  let s := x ^ 2 / (4 * f) + f in
  0 < s <= 12 /\
  x + s * (4 * f / (x ^ 2 + 4 * f ^ 2) * (0 - x)) = 0 /\
  x ^ 2 / (4 * f) + s * (4 * f / (x ^ 2 + 4 * f ^ 2) * (f - x ^ 2 / (4 * f))) = f.
Proof.
  intros Hf Hx s.
  assert (Hy : 0 <= x ^ 2 / (4 * f) <= 9 / 2).
  { assert (E : x ^ 2 / (4 * f) * (4 * f) = x ^ 2) by (field; lra).
    set (y := x ^ 2 / (4 * f)) in *. split.
    - apply Rmult_le_pos; [nra |]. left. apply Rinv_0_lt_compat. lra.
    - destruct (Rle_dec y (9 / 2)) as [L | G]; [assumption | exfalso; nra]. }
  split; [unfold s; lra |].
  assert (Hden : x ^ 2 + 4 * f ^ 2 <> 0) by nra.
  unfold s. split; field; split; lra.
Qed.

(** X15.  Parallel mode with the focus slider in its range [0.5, 5]:
    [update] divides by no zero and draws every one of the [n] rays, two
    lines each.  For the ray at abscissa [x], line [2i] is the incident line
    from [(x, 10)] straight down for [t = 10 - x^2/(4f)], and line [2i + 1]
    starts at the hit point [(x, x^2/(4f))] and runs 12 units along the
    reflected direction; the focus [(0, f)] lies on it, at distance
    [s <= 12] from the hit. *)
Theorem update_parallel_rays_meet_at_focus
  (optics : ParabolaOptics) (f : R) (n : nat) :
  1 / 2 <= f <= 5 ->
  exists sc,
    update optics f n parallel = Fin (set_focus optics f, sc) /\
    length (ray_lines sc) = (2 * n)%nat /\
    forall i x,
      nth_error (linspace (-3) 3 n) i = Some x ->
      exists r s,
        nth_error (ray_lines sc) (2 * i) =
        Some (sample_line (x, 10) (0, -1) (10 - x ^ 2 / (4 * f))) /\
        nth_error (ray_lines sc) (2 * i + 1) =
        Some (sample_line (x, x ^ 2 / (4 * f)) r 12) /\
        0 < s <= 12 /\
        x + s * fst r = 0 /\ x ^ 2 / (4 * f) + s * snd r = f.
Proof.
  intros Hf. eexists. split; [apply update_parallel_value; exact Hf |].
  cbn [ray_lines]. split.
  - rewrite length_concat_pairs, linspace_length. reflexivity.
  - intros i x Hx.
    assert (Hin : -3 <= x <= 3).
    { apply (linspace_bounds (-3) 3 x n); [lra |].
      eapply nth_error_In. exact Hx. }
    destruct (focus_on_reflected_segment f x Hf Hin) as (Hs & H1 & H2).
    exists (4 * f / (x ^ 2 + 4 * f ^ 2) * (0 - x),
            4 * f / (x ^ 2 + 4 * f ^ 2) * (f - x ^ 2 / (4 * f))),
           (x ^ 2 / (4 * f) + f).
    destruct (nth_error_concat_pairs
                (fun x => sample_line (x, 10) (0, -1) (10 - x ^ 2 / (4 * f)))
                (fun x => sample_line (x, x ^ 2 / (4 * f))
                   (4 * f / (x ^ 2 + 4 * f ^ 2) * (0 - x),
                    4 * f / (x ^ 2 + 4 * f ^ 2) * (f - x ^ 2 / (4 * f))) 12)
                (linspace (-3) 3 n) i) as [E1 E2].
    rewrite E1, E2, Hx. cbn [option_map fst snd].
    split; [reflexivity |]. split; [reflexivity |].
    split; [exact Hs |]. split; [exact H1 | exact H2].
Qed.

Lemma update_parallel_rays_meet_at_focus_witness :
  exists sc,
    update (init 3) 1 5 parallel = Fin (set_focus (init 3) 1, sc) /\
    length (ray_lines sc) = (2 * 5)%nat /\
    forall i x,
      nth_error (linspace (-3) 3 5) i = Some x ->
      exists r s,
        nth_error (ray_lines sc) (2 * i) =
        Some (sample_line (x, 10) (0, -1) (10 - x ^ 2 / (4 * 1))) /\
        nth_error (ray_lines sc) (2 * i + 1) =
        Some (sample_line (x, x ^ 2 / (4 * 1)) r 12) /\
        0 < s <= 12 /\
        x + s * fst r = 0 /\ x ^ 2 / (4 * 1) + s * snd r = 1.
Proof.
  apply (update_parallel_rays_meet_at_focus (init 3) 1 5). lra.
Defined.

Lemma update_scene_shape_witness :
  exists optics' sc,
    update (init 3) 1 5 parallel = Fin (optics', sc) /\
    focus optics' = 1 /\ directrix optics' = directrix (init 3) /\
    length (parabola_plot sc) = 400%nat /\
    Nat.Even (length (ray_lines sc)).
Proof.
  assert (Hf : 1 / 2 <= 1 <= 5) by lra.
  pose proof (update_parallel_value (init 3) 1 5 Hf) as Hu.
  eexists _, _. split; [exact Hu |].
  destruct (update_scene_shape _ _ _ _ _ _ Hu)
    as (H1 & H2 & _ & _ & H3 & _ & _ & H4 & _).
  repeat split; assumption.
Defined.

Lemma draw_ray_eq (optics : ParabolaOptics) (ray : point * point) :
  draw_ray optics ray =
  (result <- reflect_ray optics (fst ray) (snd ray) ;;
   match result with
   | Some (intersection, reflected, t) =>
       Fin [sample_line (fst ray) (snd ray) t;
            sample_line intersection reflected 12]
   | None => Fin []
   end).
Proof. destruct ray as [ray_start ray_dir]. reflexivity. Qed.

(** X16.  Focal mode with an odd number of rays, three or more (the
    default 5 among them): whatever the focus value, [update] divides by
    zero, on the middle ray when [f <> 0]. *)
Theorem update_focal_odd_divides_by_zero
  (optics : ParabolaOptics) (f : R) (m : nat) :
  update optics f (2 * m + 3) focal = DivZero.
Proof.
  unfold update. remember (linspace (-8) 8 400) as xs eqn:Exs. cbv zeta.
  destruct (Req_dec_T f 0) as [Z | N].
  - destruct (linspace_nonempty (-8) 8 400) as (x & xs' & E); [lia |].
    rewrite (collect_DivZero _ xs x); [reflexivity | |].
    + rewrite Exs, E. left. reflexivity.
    + unfold parabola_y. apply fdiv_zero. cbn [focus set_focus]. lra.
  - rewrite parabola_plot_defined by (cbn [focus set_focus]; exact N).
    cbn [bind].
    rewrite generate_focal_rays_value by (cbn [focus set_focus]; exact N).
    cbn [bind].
    destruct (linspace_centre m) as (x & Hx & Hx0).
    rewrite (collect_DivZero _ _ (focal_ray_of (set_focus optics f) x));
      [reflexivity | |].
    + apply in_map. eapply nth_error_In. exact Hx.
    + rewrite draw_ray_eq, focal_ray_of_centre by exact Hx0. reflexivity.
Qed.

Lemma linspace_even_nonzero (k i : nat) (x : R) :
  nth_error (linspace (-3) 3 (2 * k)) i = Some x -> x <> 0.
Proof.
  intros Hx Hx0. apply nth_error_In in Hx.
  apply linspace_In in Hx as (j & Hj & Hx).
  remember (2 * k)%nat as N eqn:E. destruct N as [| [| n]]; [lia | lia |].
  set (D := INR (S (S n) - 1)) in *.
  assert (HD : D = INR (S (S n) - 1)) by reflexivity.
  assert (Hn : 0 < D) by (rewrite HD; apply lt_0_INR; lia).
  assert (H2 : INR (2 * j) = D).
  { rewrite mult_INR. simpl (INR 2). rewrite Hx0 in Hx.
    assert (Hq : INR j * ((3 - -3) / D) * D = 3 * D) by nra.
    replace (INR j * ((3 - -3) / D) * D) with (6 * INR j) in Hq by (field; lra).
    lra. }
  rewrite HD in H2. apply INR_eq in H2. lia.
Qed.

Lemma draw_focal_ray (self : ParabolaOptics) (x : R) :
  0 < focus self -> x <> 0 ->
  draw_ray self (focal_ray_of self x) =
  Fin [sample_line (0, focus self) (snd (focal_ray_of self x))
         (x ^ 2 / (4 * focus self) + focus self);
       sample_line (x, x ^ 2 / (4 * focus self)) (0, 1) 12].
Proof.
  intros Hf Hx. rewrite draw_ray_eq, focal_ray_of_reflects_up by assumption.
  reflexivity.
Qed.

Lemma vertical_line_points (p q : point) :
  In q (sample_line p (0, 1) 12) ->
  fst q = fst p /\ snd p <= snd q <= snd p + 12.
Proof.
  unfold sample_line. intros H. apply in_map_iff in H as (s & <- & Hs).
  apply (linspace_bounds 0 12 s 50) in Hs; [| lra].
  cbn [fst snd]. split; [ring | lra].
Qed.

Lemma focal_ray_of_reaches_target (self : ParabolaOptics) (x : R) :
  0 < focus self ->
  let t := x ^ 2 / (4 * focus self) + focus self in
  let d := snd (focal_ray_of self x) in
  0 + t * fst d = x /\ focus self + t * snd d = x ^ 2 / (4 * focus self).
Proof.
  intros Hf t d. unfold d, focal_ray_of. cbn [fst snd].
  set (f := focus self) in *.
  assert (Hy : 0 <= x ^ 2 / (4 * f)).
  { apply Rmult_le_pos; [nra |]. left. apply Rinv_0_lt_compat. lra. }
  assert (Hn : norm (x - 0, x ^ 2 / (4 * f) - f) = x ^ 2 / (4 * f) + f).
  { apply norm_eq; [lra |]. cbn [fst snd]. field. lra. }
  rewrite Hn. unfold t. fold f. split; field; split; try lra; nra.
Qed.

(** X17.  Focal mode with [f > 0] and an even number [2k] of rays:
    [update] divides by no zero and draws all of them, two lines each.  No
    ray is aimed at [x = 0].  For the ray aimed at [x], line [2i] goes from
    the focus to the curve point [(x, x^2/(4f))], and line [2i + 1] is the
    vertical segment from that point 12 units straight up. *)
Theorem update_focal_even_rays_leave_parallel
  (optics : ParabolaOptics) (f : R) (k : nat) :
  0 < f ->
  exists sc,
    update optics f (2 * k) focal = Fin (set_focus optics f, sc) /\
    length (ray_lines sc) = (2 * (2 * k))%nat /\
    forall i x,
      nth_error (linspace (-3) 3 (2 * k)) i = Some x ->
      x <> 0 /\
      exists d,
        nth_error (ray_lines sc) (2 * i) =
        Some (sample_line (0, f) d (x ^ 2 / (4 * f) + f)) /\
        0 + (x ^ 2 / (4 * f) + f) * fst d = x /\
        f + (x ^ 2 / (4 * f) + f) * snd d = x ^ 2 / (4 * f) /\
        nth_error (ray_lines sc) (2 * i + 1) =
        Some (sample_line (x, x ^ 2 / (4 * f)) (0, 1) 12) /\
        forall q, In q (sample_line (x, x ^ 2 / (4 * f)) (0, 1) 12) ->
          fst q = x /\ x ^ 2 / (4 * f) <= snd q <= x ^ 2 / (4 * f) + 12.
Proof.
  intros Hf.
  set (o' := set_focus optics f).
  set (g := fun x => sample_line (0, f) (snd (focal_ray_of o' x))
                       (x ^ 2 / (4 * f) + f)).
  set (h := fun x => sample_line (x, x ^ 2 / (4 * f)) (0, 1) 12).
  assert (Hu : update optics f (2 * k) focal =
               Fin (o', {| parabola_plot :=
                             combine (linspace (-8) 8 400)
                               (map (fun x => x ^ 2 / (4 * f)) (linspace (-8) 8 400));
                           focus_plot := [(0, f)];
                           directrix_plot := [(-8, - f); (8, - f)];
                           ray_lines :=
                             concat (map (fun x => [g x; h x])
                                         (linspace (-3) 3 (2 * k))) |})).
  { unfold update. remember (linspace (-8) 8 400) as xs eqn:Exs. cbv zeta.
    fold o'.
    rewrite parabola_plot_defined by (unfold o'; cbn [focus set_focus]; lra).
    cbn [bind].
    rewrite generate_focal_rays_value by (unfold o'; cbn [focus set_focus]; lra).
    cbn [bind]. rewrite map_map.
    rewrite (collect_map_Fin _ (fun x => [g x; h x])); [reflexivity |].
    intros x Hx. apply In_nth_error in Hx as [i Hi].
    apply linspace_even_nonzero in Hi.
    apply (draw_focal_ray o' x); [unfold o'; cbn [focus set_focus]; lra | exact Hi]. }
  eexists. split; [exact Hu |]. cbn [ray_lines]. split.
  - rewrite length_concat_pairs, linspace_length. reflexivity.
  - intros i x Hx.
    split; [apply (linspace_even_nonzero k i x Hx) |].
    destruct (nth_error_concat_pairs g h (linspace (-3) 3 (2 * k)) i) as [E1 E2].
    destruct (focal_ray_of_reaches_target o' x) as [R1 R2];
      [unfold o'; cbn [focus set_focus]; lra |].
    cbn [focus set_focus o'] in R1, R2.
    exists (snd (focal_ray_of o' x)).
    rewrite E1, E2, Hx. cbn [option_map].
    split; [reflexivity |]. split; [exact R1 |]. split; [exact R2 |].
    split; [reflexivity |].
    intros q Hq. apply vertical_line_points in Hq. exact Hq.
Qed.

Lemma update_focal_even_rays_leave_parallel_witness :
  exists sc,
    update (init 1) 2 (2 * 2) focal = Fin (set_focus (init 1) 2, sc) /\
    length (ray_lines sc) = (2 * (2 * 2))%nat.
Proof.
  assert (Hf : 0 < 2) by lra.
  destruct (update_focal_even_rays_leave_parallel (init 1) 2 2 Hf)
    as (sc & Hu & Hlen & _).
  exists sc. split; assumption.
Defined.

(** * Vertical rays *)

(** X18.  For [f <> 0], a vertical ray ([dx = 0]) from an origin
    [np.allclose] does not take for the focus gets a hit exactly when it
    points at the curve: downwards from strictly above it or upwards from
    strictly below it.  The hit is the curve point at the origin's
    abscissa, and [t * dy] is the signed vertical distance to it. *)
Theorem vertical_ray_hits_iff_aimed_at_curve
  (self : ParabolaOptics) (o d : point) :
  focus self <> 0 -> allclose o (0, focus self) = false -> fst d = 0 ->
  let y_parabola := fst o ^ 2 / (4 * focus self) in
  (reflect_ray self o d <> Fin None <->
   (snd d < 0 /\ y_parabola < snd o) \/ (0 < snd d /\ snd o < y_parabola)) /\
  (forall p r t,
     reflect_ray self o d = Fin (Some (p, r, t)) ->
     p = (fst o, y_parabola) /\ t * snd d = y_parabola - snd o).
Proof.
  intros Hf C Z y_parabola.
  assert (Hi : intersect self o d =
               (r <- vertical_root y_parabola (snd o) (snd d) ;;
                match r with
                | None => Fin None
                | Some t => Fin (Some ((fst o, y_parabola), t))
                end)).
  { rewrite intersect_vertical_branch by assumption.
    unfold parabola_y. rewrite fdiv_nonzero by lra. reflexivity. }
  split; [split |].
  - intros Hne.
    destruct (Req_dec_T (snd d) 0) as [Zy | Ny].
    { exfalso. apply Hne. apply reflect_ray_of_miss. rewrite Hi.
      unfold vertical_root.
      destruct (Req_dec_T (snd d) 0) as [_ | N]; [reflexivity | contradiction]. }
    destruct (Rle_dec ((y_parabola - snd o) / snd d) 0) as [L | G].
    { exfalso. apply Hne. apply reflect_ray_of_miss. rewrite Hi.
      rewrite vertical_root_backward by assumption. reflexivity. }
    assert (Ht : 0 < (y_parabola - snd o) / snd d) by lra.
    assert (E : (y_parabola - snd o) / snd d * snd d = y_parabola - snd o)
      by (field; assumption).
    destruct (Rlt_dec (snd d) 0) as [Ld | Gd]; [left | right]; split; nra.
  - intros Haim.
    assert (Ny : snd d <> 0) by (destruct Haim as [[H _] | [H _]]; lra).
    assert (Ht : 0 < (y_parabola - snd o) / snd d).
    { destruct Haim as [[Hd Hy] | [Hd Hy]].
      - replace ((y_parabola - snd o) / snd d)
          with ((snd o - y_parabola) / - snd d) by (field; assumption).
        apply Rdiv_lt_0_compat; lra.
      - apply Rdiv_lt_0_compat; lra. }
    rewrite (reflect_ray_of_hit self o d (fst o, y_parabola)
               ((y_parabola - snd o) / snd d)).
    + discriminate.
    + assumption.
    + apply norm_pos_snd. assumption.
    + rewrite Hi, vertical_root_forward by assumption. reflexivity.
  - intros p r t H. apply reflect_ray_Some_inv in H as [H _].
    rewrite Hi in H. apply bind_Fin_inv in H as (res & Hres & H).
    destruct res as [s |]; [| discriminate]. injection H as <- <-.
    apply vertical_root_Some_inv in Hres as (Ny & -> & _).
    split; [reflexivity | field; assumption].
Qed.

Lemma vertical_ray_hits_iff_aimed_at_curve_witness :
  reflect_ray (init 1) (2, -3) (0, 4) <> Fin None.
Proof.
  assert (Hf : focus (init 1) <> 0) by (simpl; lra).
  assert (C : allclose (2, -3) (0, focus (init 1)) = false)
    by (apply far_in_x; simpl; solve_abs).
  destruct (vertical_ray_hits_iff_aimed_at_curve (init 1) (2, -3) (0, 4) Hf C)
    as [[_ H] _]; [reflexivity |].
  apply H. right. simpl. lra.
Defined.

(** * The general branch returns the first crossing *)

Lemma general_root_Some_value (a b c t : R) :
  general_root a b c = Fin (Some t) ->
  a <> 0 /\ 0 <= b ^ 2 - 4 * a * c /\
  t = (- b - sqrt (b ^ 2 - 4 * a * c)) / (2 * a).
Proof.
  unfold general_root.
  destruct (Rlt_dec (b ^ 2 - 4 * a * c) 0) as [L | G]; [discriminate |].
  intros H. apply bind_Fin_inv in H as (s & Hs & H).
  apply fdiv_Fin_inv in Hs as [Ha ->].
  destruct (Rlt_dec _ 0) as [L | G']; [discriminate |].
  injection H as <-. repeat split; lra.
Qed.

(** X19.  A hit returned for a ray with [dx <> 0] from an origin that
    [np.allclose] does not take for the focus is the first point of the
    ray on the parabola: no point of the ray at a parameter [0 <= s < t]
    lies on the curve. *)
Theorem general_branch_hit_is_first_crossing
  (self : ParabolaOptics) (o d p r : point) (t s : R) :
  allclose o (0, focus self) = false -> fst d <> 0 ->
  reflect_ray self o d = Fin (Some (p, r, t)) ->
  0 <= s < t ->
  parabola_y self (fst o + s * fst d) <> Fin (snd o + s * snd d).
Proof.
  intros C Hx H Hs. apply reflect_ray_Some_inv in H as [Hi Hr].
  apply reflect_at_Fin_inv in Hr as [Hf _].
  rewrite intersect_general_branch in Hi by assumption.
  apply bind_Fin_inv in Hi as (res & Hres & Hi).
  destruct res as [u |]; [| discriminate]. injection Hi as _ <-.
  apply general_root_Some_value in Hres as (Ha & Hd & Ht).
  set (a := fst d ^ 2) in *.
  set (b := 2 * fst o * fst d - 4 * focus self * snd d) in *.
  set (c := fst o ^ 2 - 4 * focus self * snd o) in *.
  pose proof (sqrt_sqrt _ Hd) as HS. pose proof (sqrt_pos (b ^ 2 - 4 * a * c)) as HP.
  set (S := sqrt (b ^ 2 - 4 * a * c)) in *.
  assert (Hapos : 0 < a) by (unfold a; apply sqr_pos_nz; assumption).
  assert (Hut : 2 * a * u + b = - S) by (rewrite Ht; field; lra).
  assert (Hq : 0 < a * s ^ 2 + b * s + c).
  { assert (Hlin : 2 * a * s + b < - S) by nra.
    assert (Hsq : S * S < (2 * a * s + b) * (2 * a * s + b)) by nra.
    assert (H4 : 0 < a * (a * s ^ 2 + b * s + c)) by nra.
    set (q := a * s ^ 2 + b * s + c) in *.
    destruct (Rlt_dec 0 q) as [L | G]; [assumption | exfalso; nra]. }
  unfold parabola_y. rewrite fdiv_nonzero by lra.
  intros E.
  assert (E' : (fst o + s * fst d) ^ 2 / (4 * focus self) = snd o + s * snd d)
    by (injection E as E; rewrite <- E; field; assumption).
  assert (Hzero : a * s ^ 2 + b * s + c = 0).
  { unfold a, b, c.
    apply (Rmult_eq_compat_r (4 * focus self)) in E'.
    replace ((fst o + s * fst d) ^ 2 / (4 * focus self) * (4 * focus self))
      with ((fst o + s * fst d) ^ 2) in E' by (field; assumption).
    nra. }
  lra.
Qed.

Lemma general_branch_hit_is_first_crossing_witness :
  parabola_y (init 1) (fst (-5, 4) + (1 / 2) * fst (1, 0)) <>
  Fin (snd (-5, 4) + (1 / 2) * snd (1, 0)).
Proof.
  assert (C : allclose (-5, 4) (0, focus (init 1)) = false)
    by (apply far_in_x; simpl; solve_abs).
  assert (Hx : fst (1, 0) <> 0) by (simpl; lra).
  assert (Hhit : exists r, reflect_ray (init 1) (-5, 4) (1, 0) =
                           Fin (Some ((-4, 4), r, 1))).
  { assert (Hs : sqrt ((2 * -5 * 1 - 4 * 1 * 0) ^ 2 -
                       4 * 1 ^ 2 * ((-5) ^ 2 - 4 * 1 * 4)) = 8)
      by (apply sqrt_eq; lra).
    eexists. apply reflect_ray_of_hit; [simpl; lra | apply norm_pos_fst; exact Hx |].
    rewrite intersect_general_branch by assumption.
    cbn [fst snd focus init].
    rewrite general_root_forward; [| lra | lra | rewrite Hs; lra].
    cbn [bind]. rewrite Hs. do 2 apply f_equal.
    apply f_equal2; [apply f_equal2 |]; lra. }
  destruct Hhit as [r Hr].
  apply (general_branch_hit_is_first_crossing (init 1) (-5, 4) (1, 0) (-4, 4) r 1 (1 / 2) C Hx Hr).
  lra.
Defined.

(** * Forward hits, on every ray that divides by no zero *)

Lemma reflect_ray_divides_by_no_zero (self : ParabolaOptics) (o d : point) :
  focus self <> 0 ->
  ~ (allclose o (0, focus self) = true /\ fst d = 0) ->
  exists res, reflect_ray self o d = Fin res.
Proof.
  intros Hf Hex. destruct (allclose o (0, focus self)) eqn:C.
  - assert (N : fst d <> 0) by (intros Z; apply Hex; split; [reflexivity | exact Z]).
    destruct (intersect_focus_hits self o d Hf N C) as (p & t & _ & Hi).
    eexists. apply reflect_ray_of_hit; [assumption | | exact Hi].
    apply norm_pos_fst. assumption.
  - destruct (intersect_defined_off_focus self o d Hf C) as (h & Hi & Hd).
    destruct (reflect_ray_defined_of_intersect self o d h Hf Hd Hi)
      as (res & Hres & _).
    exists res. exact Hres.
Qed.

(** C7, amended.  For [f > 0] and every ray other than one with [dx = 0]
    whose origin [np.allclose] takes for the focus (there the call divides
    by zero), [reflect_ray] returns [None] or a triple with [t >= 0] whose
    hit is [base + t * direction], where [base] is the focus [(0, f)] when
    [np.allclose] takes the origin for the focus, and the origin
    otherwise. *)
Theorem hit_is_forward_from_ray_base (self : ParabolaOptics) (o d : point) :
  0 < focus self ->
  ~ (allclose o (0, focus self) = true /\ fst d = 0) ->
  reflect_ray self o d = Fin None \/
  exists p r t,
    reflect_ray self o d = Fin (Some (p, r, t)) /\
    0 <= t /\
    p = (fst (ray_base self o) + t * fst d, snd (ray_base self o) + t * snd d).
Proof.
  intros Hf Hex.
  destruct (reflect_ray_divides_by_no_zero self o d) as (res & Hres);
    [lra | exact Hex |].
  destruct res as [[[p r] t] |]; [right | left; exact Hres].
  exists p, r, t. split; [exact Hres |].
  apply reflect_ray_Some_inv in Hres as [Hi _].
  apply intersect_Some_inv. exact Hi.
Qed.

Lemma hit_is_forward_from_ray_base_witness :
  reflect_ray (init 1) (0, 100001 / 100000) (1, 0) = Fin None \/
  exists p r t,
    reflect_ray (init 1) (0, 100001 / 100000) (1, 0) = Fin (Some (p, r, t)) /\
    0 <= t /\
    p = (fst (ray_base (init 1) (0, 100001 / 100000)) + t * fst (1, 0),
         snd (ray_base (init 1) (0, 100001 / 100000)) + t * snd (1, 0)).
Proof.
  apply (hit_is_forward_from_ray_base (init 1) (0, 100001 / 100000) (1, 0)).
  - simpl. lra.
  - intros [_ Z]. simpl in Z. lra.
Defined.
